(** * MedDrone Operations Center: a shallow embedding of [app.js]

    The development follows the layout of the script: the number and
    string primitives it relies on, the application data and state, the
    API client, the session controller, navigation, the view renderers
    and the periodic refresh.  Theorems come last.

    Modelling conventions.
    - A JavaScript number is an exact rational ([Q]); rounding of IEEE
      doubles is not modelled.  The values [Math.random()] is going to return
      are a stream held by the browser; theorems assume each lies in
      [0 <= r < 1].
    - A JavaScript string is a [string] over the ASCII character set.
    - Objects used as dictionaries ([demo_users], [charts],
      [updateIntervals]) are finite maps.
    - An [async] function is a task: it either finishes with a value and
      a state, or stops at an [await] of an API request with a
      continuation that receives the outcome and the state at the moment
      of resumption.
    - Callbacks handed to [setTimeout] are recorded, defunctionalised, in
      a queue of pending timeouts.

    Embedded are the API client, the session controller, navigation, the
    fleet renderer, one chart initialiser, the tracking refresh and the
    fallback simulation of the dashboard.  The count-up animation of the
    dashboard and the analytics charts are left out: no property below
    depends on them. *)

From Stdlib Require Import QArith Qround Lqa Ascii String.
From stdpp Require Import gmap strings list fin_maps pretty.

Local Open Scope string_scope.
Local Open Scope Q_scope.

(** ** Number primitives *)

Module JS.

(** [Math.max(a, b)] and [Math.min(a, b)] on finite numbers. *)
Definition max (a b : Q) : Q := if Qle_bool a b then b else a.
Definition min (a b : Q) : Q := if Qle_bool a b then a else b.

(** [a < b] and [a > b]. *)
Definition lt (a b : Q) : bool := negb (Qle_bool b a).
Definition gt (a b : Q) : bool := negb (Qle_bool a b).

(** [Math.round(x)]: the nearest integer, halves going up. *)
Definition round (x : Q) : Z := Qfloor (x + (1 # 2)).

(** The integer [parseInt] reads at the head of a number written in plain
    decimal notation, as the widths of the bars are: its integer part, the
    fraction dropped. *)
Definition truncate (x : Q) : Z := Z.quot (Qnum x) (Zpos (Qden x)).

(** [x.toFixed(1)] read back as a number: the multiple of one tenth
    nearest to [x], the larger one on a tie, the sign handled apart. *)
Definition toFixed1 (x : Q) : Q :=
  if Qle_bool 0 x
  then inject_Z (Qfloor (x * 10 + (1 # 2))) / 10
  else - (inject_Z (Qfloor ((- x) * 10 + (1 # 2))) / 10).

End JS.

(** ** String primitives *)

(** The white space [String.prototype.trim] removes, within ASCII: TAB,
    LF, VT, FF, CR and SPACE. *)
Definition is_whitespace (c : ascii) : bool :=
  let n := nat_of_ascii c in
  ((9 <=? n)%nat && (n <=? 13)%nat) || (n =? 32)%nat.

Fixpoint trimStart (s : string) : string :=
  match s with
  | EmptyString => EmptyString
  | String c s' => if is_whitespace c then trimStart s' else s
  end.

Fixpoint trimEnd (s : string) : string :=
  match s with
  | EmptyString => EmptyString
  | String c s' =>
      match trimEnd s' with
      | EmptyString => if is_whitespace c then EmptyString else String c EmptyString
      | t => String c t
      end
  end.

Definition trim (s : string) : string := trimEnd (trimStart s).

(** A string made of white space only (the empty string included). *)
Fixpoint all_whitespace (s : string) : bool :=
  match s with
  | EmptyString => true
  | String c s' => is_whitespace c && all_whitespace s'
  end.

(** JavaScript truthiness of a string: [!s] holds for the empty string. *)
Definition truthy (s : string) : bool :=
  match s with EmptyString => false | _ => true end.


(** ** Application data *)

(** An entry of [appData.demo_users]. *)
Module DemoUser.
Record t := mk { password : string; role : string; full_name : string }.
End DemoUser.

(** The session identity held in [currentUser]: either the [user] object
    of a login response, or [{username, ...user}] built from the table
    (which carries the table's password along). *)
Module User.
Record t := mk {
  username : string;
  password : option string;
  role : string;
  full_name : string }.
End User.

Record Drone := mkDrone {
  drone_id : string;
  drone_status : string;
  drone_mission : string;
  drone_location : string;
  drone_battery : Q }.

Record SupplyItem := mkSupply {
  item_name : string;
  current_stock : Q;
  min_stock_level : Q;
  unit_of_measure : string;
  quality_status : string }.

Record KPI := mkKPI {
  total_drones : Q;
  active_missions : Q;
  success_rate : Q;
  avg_delivery_time : Q }.

(** [appData.demo_users]: a constant object, never assigned to. *)
Definition demo_users : gmap string DemoUser.t :=
  <["admin" := DemoUser.mk "admin123" "Administrator" "System Administrator"]>
  (<["fleet_mgr" := DemoUser.mk "fleet123" "Fleet Manager" "Fleet Operations Manager"]>
  (<["medical" := DemoUser.mk "medical123" "Medical Coordinator" "Medical Supply Coordinator"]>
  (<["demo" := DemoUser.mk "demo123" "Observer" "Demo User"]> ∅))).

(** The mutable part of [appData]: the cache of the last fetched data. *)
Record AppData := mkAppData {
  drone_fleet : list Drone;
  medical_supplies : list SupplyItem;
  kpi_data : KPI }.

Definition appData0 : AppData :=
  {| drone_fleet := [];
     medical_supplies := [];
     kpi_data := mkKPI 15 8 94.5 12.3 |}.

(** ** The page *)

(** [#login-error]: its text and whether it carries the class [hidden]. *)
Record ErrorDiv := mkErrorDiv { error_text : string; error_hidden : bool }.

(** The login view and the header.  An element that the page may lack is
    an [option]; [login_screen] and [main_app] hold whether the element
    carries the class [hidden]. *)
Record LoginView := mkLoginView {
  username_field : option string;
  password_field : option string;
  login_error : option ErrorDiv;
  login_screen : option bool;
  main_app : option bool;
  user_name_el : option string;
  user_role_el : option string }.

(** Pages and navigation items: the [pageId]s for which an element
    [#pageId-page] (respectively [[data-page=pageId]]) exists, those that
    carry the class [active], the number of [.action-btn] elements and the
    number of click listeners installed. *)
Record NavView := mkNavView {
  pages : list string;
  active_pages : list string;
  nav_items : list string;
  active_navs : list string;
  action_btns : nat;
  click_listeners : nat }.

(** A card built by [createDroneCard]. *)
Record DroneCard := mkDroneCard {
  card_id : string;
  card_status : string;
  card_status_class : string;
  card_mission : string;
  card_location : string;
  card_battery_class : string;
  card_battery_width : Q;
  card_battery_label : string }.

(** A [.flight-item]: the width of its [.progress-fill] in percent
    ([None] when the style holds no number), the text after the bar and
    the [.flight-eta] text, where present. *)
Record FlightItem := mkFlight {
  bar_width : option Q;
  progress_text : option string;
  flight_eta : option string }.

(** The numbers shown in [#success-rate] and [#avg-delivery] (what
    [parseFloat] reads from their text), [#fleet-grid] and the flights of
    the tracking page. *)
Record DataView := mkDataView {
  success_rate_el : option Q;
  avg_delivery_el : option Q;
  fleet_grid : option (list DroneCard);
  flights : list FlightItem;
  component_health_canvas : bool }.

Record DOM := mkDOM { login_view : LoginView; nav_view : NavView; data_view : DataView }.

(** ** The browser *)

(** What a timer runs when it fires. *)
Inductive Callback :=
  | HideLoginError
  | InitializeMainApp
  | InitializePage (pageId : string)
  | FocusUsername
  | UpdateFlightProgress
  | UpdateTimeLabels.

(** Interval timers that are running (by handle), timeouts that are
    pending (delay in milliseconds and callback), the next timer handle, the charts that
    are alive (by handle, with their type), the next chart handle, the
    console, and the values the coming calls of [Math.random()] return. *)
Record Browser := mkBrowser {
  intervals : gmap nat (Z * Callback);
  timeouts : list (Z * Callback);
  next_timer : nat;
  live_charts : gmap nat string;
  next_chart : nat;
  console : list string;
  random : nat -> Q }.

(** ** Application state *)

Record State := mkState {
  currentUser : option User.t;
  charts : gmap string nat;
  updateIntervals : gmap string nat;
  isInitialized : bool;
  appData : AppData;
  browser : Browser;
  dom : DOM }.

(** *** Field updates *)

Definition set_currentUser (u : option User.t) (s : State) : State :=
  {| currentUser := u; charts := charts s; updateIntervals := updateIntervals s;
     isInitialized := isInitialized s; appData := appData s;
     browser := browser s; dom := dom s |}.

Definition set_charts (c : gmap string nat) (s : State) : State :=
  {| currentUser := currentUser s; charts := c; updateIntervals := updateIntervals s;
     isInitialized := isInitialized s; appData := appData s;
     browser := browser s; dom := dom s |}.

Definition set_updateIntervals (t : gmap string nat) (s : State) : State :=
  {| currentUser := currentUser s; charts := charts s; updateIntervals := t;
     isInitialized := isInitialized s; appData := appData s;
     browser := browser s; dom := dom s |}.

Definition set_isInitialized (b : bool) (s : State) : State :=
  {| currentUser := currentUser s; charts := charts s; updateIntervals := updateIntervals s;
     isInitialized := b; appData := appData s;
     browser := browser s; dom := dom s |}.

Definition set_appData (a : AppData) (s : State) : State :=
  {| currentUser := currentUser s; charts := charts s; updateIntervals := updateIntervals s;
     isInitialized := isInitialized s; appData := a;
     browser := browser s; dom := dom s |}.

Definition set_browser (b : Browser) (s : State) : State :=
  {| currentUser := currentUser s; charts := charts s; updateIntervals := updateIntervals s;
     isInitialized := isInitialized s; appData := appData s;
     browser := b; dom := dom s |}.

Definition set_dom (d : DOM) (s : State) : State :=
  {| currentUser := currentUser s; charts := charts s; updateIntervals := updateIntervals s;
     isInitialized := isInitialized s; appData := appData s;
     browser := browser s; dom := d |}.

Definition set_login_view (v : LoginView) (s : State) : State :=
  set_dom {| login_view := v; nav_view := nav_view (dom s); data_view := data_view (dom s) |} s.

Definition set_nav_view (v : NavView) (s : State) : State :=
  set_dom {| login_view := login_view (dom s); nav_view := v; data_view := data_view (dom s) |} s.

Definition set_data_view (v : DataView) (s : State) : State :=
  set_dom {| login_view := login_view (dom s); nav_view := nav_view (dom s); data_view := v |} s.

Definition set_drone_fleet (l : list Drone) (s : State) : State :=
  set_appData {| drone_fleet := l; medical_supplies := medical_supplies (appData s);
                 kpi_data := kpi_data (appData s) |} s.

Definition set_medical_supplies (l : list SupplyItem) (s : State) : State :=
  set_appData {| drone_fleet := drone_fleet (appData s); medical_supplies := l;
                 kpi_data := kpi_data (appData s) |} s.

Definition set_kpi_data (k : KPI) (s : State) : State :=
  set_appData {| drone_fleet := drone_fleet (appData s);
                 medical_supplies := medical_supplies (appData s); kpi_data := k |} s.

(** *** Console, timers and charts *)

Definition console_log (msg : string) (s : State) : State :=
  let b := browser s in
  set_browser {| intervals := intervals b; timeouts := timeouts b; next_timer := next_timer b;
                 live_charts := live_charts b; next_chart := next_chart b;
                 console := console b ++ [msg];
                 random := random b |} s.

(** [setTimeout(cb, delay)]: the handle is never kept by the script. *)
Definition setTimeout (cb : Callback) (delay : Z) (s : State) : State :=
  let b := browser s in
  set_browser {| intervals := intervals b; timeouts := timeouts b ++ [(delay, cb)];
                 next_timer := S (next_timer b);
                 live_charts := live_charts b; next_chart := next_chart b;
                 console := console b; random := random b |} s.

(** [setInterval(cb, delay)] returns the handle of the new timer. *)
Definition setInterval (cb : Callback) (delay : Z) (s : State) : nat * State :=
  let b := browser s in
  (next_timer b,
   set_browser {| intervals := <[next_timer b := (delay, cb)]> (intervals b);
                  timeouts := timeouts b; next_timer := S (next_timer b);
                  live_charts := live_charts b; next_chart := next_chart b;
                  console := console b; random := random b |} s).

Definition clearInterval (h : nat) (s : State) : State :=
  let b := browser s in
  set_browser {| intervals := delete h (intervals b);
                 timeouts := timeouts b; next_timer := next_timer b;
                 live_charts := live_charts b; next_chart := next_chart b;
                 console := console b; random := random b |} s.

(** [new Chart(ctx, {type: ...})] returns the handle of the new chart. *)
Definition newChart (type : string) (s : State) : nat * State :=
  let b := browser s in
  (next_chart b,
   set_browser {| intervals := intervals b; timeouts := timeouts b; next_timer := next_timer b;
                  live_charts := <[next_chart b := type]> (live_charts b);
                  next_chart := S (next_chart b);
                  console := console b; random := random b |} s).

(** [chart.destroy()]. *)
Definition destroyChart (h : nat) (s : State) : State :=
  let b := browser s in
  set_browser {| intervals := intervals b; timeouts := timeouts b; next_timer := next_timer b;
                 live_charts := delete h (live_charts b); next_chart := next_chart b;
                 console := console b; random := random b |} s.

(** [Math.random()]: the head of the stream, which moves on by one. *)
Definition Math_random (s : State) : Q * State :=
  let b := browser s in
  (random b 0%nat,
   set_browser {| intervals := intervals b; timeouts := timeouts b; next_timer := next_timer b;
                  live_charts := live_charts b; next_chart := next_chart b;
                  console := console b; random := fun n => random b (S n) |} s).

(** The state once the script has been loaded: nobody is logged in, the
    cache holds the hard-coded KPI values, and the only timer is the
    30-second one that rewrites the time labels, which the script starts at
    top level and keeps no handle of. *)
Definition browser0 (rnd : nat -> Q) : Browser :=
  {| intervals := {[ 1%nat := (30000%Z, UpdateTimeLabels) ]};
     timeouts := []; next_timer := 2;
     live_charts := ∅; next_chart := 1; console := []; random := rnd |}.

Definition initialState (rnd : nat -> Q) (d : DOM) : State :=
  {| currentUser := None; charts := ∅; updateIntervals := ∅; isInitialized := false;
     appData := appData0; browser := browser0 rnd; dom := d |}.

(** ** API client *)

(** The requests the script sends, and the JSON each answers with. *)
Inductive Endpoint :=
  | PostLogin (username password : string)
  | GetKpis
  | GetFleetStatus
  | GetMedicalInventory.

Definition endpoint_path (e : Endpoint) : string :=
  match e with
  | PostLogin _ _ => "/login"
  | GetKpis => "/dashboard/kpis"
  | GetFleetStatus => "/fleet/status"
  | GetMedicalInventory => "/medical/inventory"
  end.

Record LoginResponse := mkLoginResponse { login_success : bool; login_user : User.t }.

Definition Json (e : Endpoint) : Type :=
  match e with
  | PostLogin _ _ => LoginResponse
  | GetKpis => KPI
  | GetFleetStatus => list Drone
  | GetMedicalInventory => list SupplyItem
  end.

(** The outcome of [fetch] followed by the [response.ok] test: the
    request was rejected (transport failure or a status outside 2xx), or
    it resolved to the parsed body. *)
Inductive ApiResult (A : Type) :=
  | NetworkError
  | Resolved (json : A).
Arguments NetworkError {A}.
Arguments Resolved {A} json.

(** An [async] function under way: finished with a value and a state, or
    suspended at the [await] of a request, in the state [s] it leaves
    behind, with the rest of its body. *)
Inductive Task (A : Type) :=
  | Done (a : A) (s : State)
  | Await (e : Endpoint) (s : State) (k : ApiResult (Json e) -> State -> Task A).
Arguments Done {A} a s.
Arguments Await {A} e s k.

Fixpoint bind {A B : Type} (t : Task A) (f : A -> State -> Task B) : Task B :=
  match t with
  | Done a s => f a s
  | Await e s k => Await e s (fun r s' => bind (k r s') f)
  end.

(** The network as a function that answers every request. *)
Definition Network := forall e : Endpoint, ApiResult (Json e).

(** Run a task to its end with nothing else scheduled in between. *)
Fixpoint run {A : Type} (net : Network) (t : Task A) : A * State :=
  match t with
  | Done a s => (a, s)
  | Await e s k => run net (k (net e) s)
  end.

(** The requests a task sends when run against [net], in order. *)
Fixpoint requests {A : Type} (net : Network) (t : Task A) : list Endpoint :=
  match t with
  | Done _ _ => []
  | Await e s k => e :: requests net (k (net e) s)
  end.

(** [apiRequest(endpoint, options)]: a failure is logged and thrown again. *)
Definition apiRequest (e : Endpoint) (s : State) : Task (ApiResult (Json e)) :=
  Await e s (fun r s' =>
    match r with
    | Resolved json => Done (Resolved json) s'
    | NetworkError => Done NetworkError (console_log "API request error:" s')
    end).

Definition fetchKPIs (s : State) : Task KPI :=
  bind (apiRequest GetKpis s) (fun r s' =>
    match r with
    | Resolved data => Done data (set_kpi_data data s')
    | NetworkError =>
        let s'' := console_log "Failed to fetch KPIs:" s' in
        Done (kpi_data (appData s'')) s''
    end).

Definition fetchFleetStatus (s : State) : Task (list Drone) :=
  bind (apiRequest GetFleetStatus s) (fun r s' =>
    match r with
    | Resolved data => Done data (set_drone_fleet data s')
    | NetworkError =>
        let s'' := console_log "Failed to fetch fleet status:" s' in
        Done (drone_fleet (appData s'')) s''
    end).

Definition fetchMedicalSupplies (s : State) : Task (list SupplyItem) :=
  bind (apiRequest GetMedicalInventory s) (fun r s' =>
    match r with
    | Resolved data => Done data (set_medical_supplies data s')
    | NetworkError =>
        let s'' := console_log "Failed to fetch medical supplies:" s' in
        Done (medical_supplies (appData s'')) s''
    end).

(** ** Navigation *)

(** [showPage(pageId)]. *)
Definition showPage (pageId : string) (s : State) : State :=
  let s := console_log "showPage called with:" s in
  let n := nav_view (dom s) in
  let s := console_log "Target page element:" s in
  let target := bool_decide (pageId ∈ pages n) in
  let s := if target then s else console_log "Page not found:" s in
  let s := console_log "Nav item element:" s in
  let item := bool_decide (pageId ∈ nav_items n) in
  let s := if item then s else console_log "Nav item not found for page:" s in
  let s := set_nav_view
    {| pages := pages n;
       active_pages := if target then [pageId] else [];
       nav_items := nav_items n;
       active_navs := if item then [pageId] else [];
       action_btns := action_btns n;
       click_listeners := click_listeners n |} s in
  setTimeout (InitializePage pageId) 50 s.

(** ** Session controller *)

Definition showLoginError (message : string) (s : State) : State :=
  let v := login_view (dom s) in
  match login_error v with
  | Some _ =>
      let s := set_login_view
        {| username_field := username_field v; password_field := password_field v;
           login_error := Some (mkErrorDiv message false);
           login_screen := login_screen v; main_app := main_app v;
           user_name_el := user_name_el v; user_role_el := user_role_el v |} s in
      setTimeout HideLoginError 5000 s
  | None => s
  end.

Definition clearLoginForm (s : State) : State :=
  let v := login_view (dom s) in
  set_login_view
    {| username_field := (fun _ => "") <$> username_field v;
       password_field := (fun _ => "") <$> password_field v;
       login_error := (fun e => mkErrorDiv (error_text e) true) <$> login_error v;
       login_screen := login_screen v; main_app := main_app v;
       user_name_el := user_name_el v; user_role_el := user_role_el v |} s.

(** Lines 217-243 of [handleLogin]: what follows a successful
    authentication by either path.  Both callers have just assigned
    [currentUser], which the header labels read. *)
Definition enterMainApp (s : State) : Task bool :=
  let s := clearLoginForm s in
  let v := login_view (dom s) in
  match login_screen v, main_app v with
  | Some _, Some _ =>
      match currentUser s with
      | Some u =>
          let s := set_login_view
            {| username_field := username_field v; password_field := password_field v;
               login_error := login_error v;
               login_screen := Some true; main_app := Some false;
               user_name_el := (fun _ => User.full_name u) <$> user_name_el v;
               user_role_el := (fun _ => User.role u) <$> user_role_el v |} s in
          Done false (setTimeout InitializeMainApp 100 s)
      | None => Done false s
      end
  | _, _ => Done false (showLoginError "Application error. Please refresh the page." s)
  end.

(** The [catch] block of [handleLogin]: the look-up in [demo_users].  A
    name that [demo_users] only inherits from [Object.prototype] has no
    [password] and fails the comparison like an absent one. *)
Definition localAuth (username password : string) (s : State) : Task bool :=
  let s := console_log "API auth failed, trying local auth:" s in
  match demo_users !! username with
  | Some user =>
      if String.eqb (DemoUser.password user) password
      then enterMainApp
             (set_currentUser
                (Some (User.mk username (Some (DemoUser.password user))
                               (DemoUser.role user) (DemoUser.full_name user))) s)
      else Done false (clearLoginForm (showLoginError "Invalid username or password." s))
  | None => Done false (clearLoginForm (showLoginError "Invalid username or password." s))
  end.

(** [handleLogin(event)].  It always returns [false]; cancelling the
    submit event leaves the state alone. *)
Definition handleLogin (s : State) : Task bool :=
  let v := login_view (dom s) in
  match username_field v, password_field v with
  | Some usernameValue, Some passwordValue =>
      let username := trim usernameValue in
      let password := trim passwordValue in
      if negb (truthy username) || negb (truthy password)
      then Done false (showLoginError "Please enter both username and password." s)
      else
        bind (apiRequest (PostLogin username password) s) (fun r s' =>
          match r with
          | Resolved response =>
              if login_success response
              then enterMainApp (set_currentUser (Some (login_user response)) s')
              else localAuth username password s'
          | NetworkError => localAuth username password s'
          end)
  | _, _ => Done false (showLoginError "Login form error. Please refresh the page." s)
  end.

(** [Object.values(updateIntervals).forEach(interval => { if (interval)
    clearInterval(interval); })] *)
Definition clearAllIntervals (s : State) : State :=
  foldr (fun kv s => if bool_decide (kv.2 = 0%nat) then s else clearInterval kv.2 s)
        s (map_to_list (updateIntervals s)).

(** [Object.values(charts).forEach(chart => { ... chart.destroy(); })] *)
Definition destroyAllCharts (s : State) : State :=
  foldr (fun kv s => destroyChart kv.2 s) s (map_to_list (charts s)).

(** [handleLogout()]. *)
Definition handleLogout (s : State) : State :=
  let s := set_currentUser None s in
  let s := set_updateIntervals ∅ (clearAllIntervals s) in
  let s := set_charts ∅ (destroyAllCharts s) in
  let v := login_view (dom s) in
  let s :=
    match login_screen v, main_app v with
    | Some _, Some _ =>
        set_login_view
          {| username_field := username_field v; password_field := password_field v;
             login_error := login_error v;
             login_screen := Some false; main_app := Some true;
             user_name_el := user_name_el v; user_role_el := user_role_el v |} s
    | _, _ => s
    end in
  let s := clearLoginForm s in
  let s := showPage "dashboard" s in
  match username_field (login_view (dom s)) with
  | Some _ => setTimeout FocusUsername 100 s
  | None => s
  end.

(** [initializeMainApp()].  Every navigation item and every action
    button gets one click listener; drawing the icons leaves the state
    alone. *)
Definition initializeMainApp (s : State) : State :=
  if isInitialized s then s
  else
    let s := showPage "dashboard" s in
    let n := nav_view (dom s) in
    let s := console_log "Found nav items:" s in
    let s := foldl (fun s _ => console_log "Setting up listener for:" s) s (nav_items n) in
    let s := set_nav_view
      {| pages := pages n; active_pages := active_pages n;
         nav_items := nav_items n; active_navs := active_navs n;
         action_btns := action_btns n;
         click_listeners := (click_listeners n + length (nav_items n) + action_btns n)%nat |} s in
    set_isInitialized true s.

(** ** View renderers *)

(** [c.toLowerCase()] on an ASCII character. *)
Definition toLowerCase_ascii (c : ascii) : ascii :=
  let n := nat_of_ascii c in
  if (65 <=? n)%nat && (n <=? 90)%nat then ascii_of_nat (n + 32) else c.

Fixpoint toLowerCase (s : string) : string :=
  match s with
  | EmptyString => EmptyString
  | String c s' => String (toLowerCase_ascii c) (toLowerCase s')
  end.

(** [s.replace(' ', '-')]: the first space only. *)
Fixpoint replace_space (s : string) : string :=
  match s with
  | EmptyString => EmptyString
  | String c s' => if Ascii.eqb c " " then String "-" s' else String c (replace_space s')
  end.

(** The class [createDroneCard] gives the battery bar. *)
Definition batteryClass (battery : Q) : string :=
  if JS.gt battery 60 then "high"
  else if JS.gt battery 30 then "medium"
  else "low".

(** [createDroneCard(drone)]. *)
Definition createDroneCard (drone : Drone) : DroneCard :=
  {| card_id := drone_id drone;
     card_status := drone_status drone;
     card_status_class := replace_space (toLowerCase (drone_status drone));
     card_mission := drone_mission drone;
     card_location := drone_location drone;
     card_battery_class := batteryClass (drone_battery drone);
     card_battery_width := drone_battery drone;
     card_battery_label := pretty (JS.round (drone_battery drone)) +:+ "%" |}.

(** [initializeFleetManagement()].  [fetchFleetStatus] never throws, so
    the [catch] block, which renders [appData.drone_fleet], is not
    entered. *)
Definition initializeFleetManagement (s : State) : Task unit :=
  match fleet_grid (data_view (dom s)) with
  | None => Done tt s
  | Some _ =>
      bind (fetchFleetStatus s) (fun fleetData s' =>
        let v := data_view (dom s') in
        Done tt (set_data_view
          {| success_rate_el := success_rate_el v; avg_delivery_el := avg_delivery_el v;
             fleet_grid := Some (map createDroneCard fleetData);
             flights := flights v;
             component_health_canvas := component_health_canvas v |} s'))
  end.

(** [initializeComponentHealthChart()]. *)
Definition initializeComponentHealthChart (s : State) : State :=
  if component_health_canvas (data_view (dom s)) then
    let s := match charts s !! "componentHealth" with
             | Some h => destroyChart h s
             | None => s
             end in
    let '(h, s) := newChart "bar" s in
    set_charts (<["componentHealth" := h]> (charts s)) s
  else s.

(** ** Periodic refresh *)

(** [initializeTracking()]. *)
Definition initializeTracking (s : State) : State :=
  let s := match updateIntervals s !! "tracking" with
           | Some h => if bool_decide (h = 0%nat) then s else clearInterval h s
           | None => s
           end in
  let '(h, s) := setInterval UpdateFlightProgress 3000 s in
  set_updateIntervals (<["tracking" := h]> (updateIntervals s)) s.

(** [parseInt(bar.style.width) || 0]. *)
Definition currentWidth (f : FlightItem) : Z :=
  match bar_width f with
  | Some w => JS.truncate w
  | None => 0%Z
  end.

(** [Math.max(1, Math.round((100 - newWidth) * 0.2))]. *)
Definition remainingTime (newWidth : Q) : Z :=
  Z.max 1 (JS.round ((100 - newWidth) * 0.2)).

(** The body of the [forEach] of [updateFlightProgress], one bar. *)
Definition updateFlight (f : FlightItem) (s : State) : FlightItem * State :=
  if (currentWidth f <? 100)%Z then
    let '(r, s) := Math_random s in
    let newWidth := JS.min 100 (inject_Z (currentWidth f) + r * 5) in
    ({| bar_width := Some newWidth;
        progress_text :=
          (fun _ => pretty (JS.round newWidth) +:+ "% Complete") <$> progress_text f;
        flight_eta :=
          (fun _ => "ETA: " +:+ pretty (remainingTime newWidth) +:+ " min") <$> flight_eta f |},
     s)
  else (f, s).

Fixpoint updateFlights (fs : list FlightItem) (s : State) : list FlightItem * State :=
  match fs with
  | [] => ([], s)
  | f :: fs' =>
      let '(f', s) := updateFlight f s in
      let '(fs'', s) := updateFlights fs' s in
      (f' :: fs'', s)
  end.

(** [updateFlightProgress()]. *)
Definition updateFlightProgress (s : State) : State :=
  let '(fs, s) := updateFlights (flights (data_view (dom s))) s in
  let v := data_view (dom s) in
  set_data_view
    {| success_rate_el := success_rate_el v; avg_delivery_el := avg_delivery_el v;
       fleet_grid := fleet_grid v; flights := fs;
       component_health_canvas := component_health_canvas v |} s.

(** The body of the [forEach] of [updateDashboardDataLocal], one drone. *)
Definition simulateBattery (drone : Drone) (s : State) : Drone * State :=
  if String.eqb (drone_status drone) "Active" && JS.gt (drone_battery drone) 20 then
    let '(r, s) := Math_random s in
    (mkDrone (drone_id drone) (drone_status drone) (drone_mission drone)
             (drone_location drone) (JS.max 20 (drone_battery drone - r * 2)), s)
  else if String.eqb (drone_status drone) "Charging" && JS.lt (drone_battery drone) 100 then
    let '(r, s) := Math_random s in
    (mkDrone (drone_id drone) (drone_status drone) (drone_mission drone)
             (drone_location drone) (JS.min 100 (drone_battery drone + r * 5)), s)
  else (drone, s).

Fixpoint simulateFleet (ds : list Drone) (s : State) : list Drone * State :=
  match ds with
  | [] => ([], s)
  | d :: ds' =>
      let '(d', s) := simulateBattery d s in
      let '(ds'', s) := simulateFleet ds' s in
      (d' :: ds'', s)
  end.

(** [const variation = 0.1]. *)
Definition variation : Q := 0.1.

(** The step of the success rate and of the delivery time. *)
Definition newSuccessRate (currentSuccessRate r : Q) : Q :=
  JS.max 90 (JS.min 100 (currentSuccessRate + (r - 0.5) * variation)).

Definition newDeliveryTime (currentDeliveryTime r : Q) : Q :=
  JS.max 8 (JS.min 20 (currentDeliveryTime + (r - 0.5) * 0.5)).

(** [updateDashboardDataLocal()]. *)
Definition updateDashboardDataLocal (s : State) : State :=
  let v := data_view (dom s) in
  let '(rate, s) :=
    match success_rate_el v with
    | Some currentSuccessRate =>
        let '(r, s) := Math_random s in
        (Some (JS.toFixed1 (newSuccessRate currentSuccessRate r)), s)
    | None => (None, s)
    end in
  let '(time, s) :=
    match avg_delivery_el v with
    | Some currentDeliveryTime =>
        let '(r, s) := Math_random s in
        (Some (JS.toFixed1 (newDeliveryTime currentDeliveryTime r)), s)
    | None => (None, s)
    end in
  let s := set_data_view
    {| success_rate_el := rate; avg_delivery_el := time;
       fleet_grid := fleet_grid v; flights := flights v;
       component_health_canvas := component_health_canvas v |} s in
  let '(fleet, s) := simulateFleet (drone_fleet (appData s)) s in
  set_drone_fleet fleet s.

(** ** The rest of the dashboard and of the pages *)

(** *** Count-up animation *)

(** [end % 1 !== 0]: the target of the animation is not a whole number. *)
Definition isFloat (endValue : Q) : bool :=
  negb (Qeq_bool endValue (inject_Z (Qfloor endValue))).

(** One run of [update(currentTime)] inside [animateValue(element, start,
    end, duration)], the animation having started at [startTime]: the
    number written to the element, and whether another frame is
    requested.  The durations the script passes are positive. *)
Definition animateValue_update (start endValue duration startTime currentTime : Q)
  : Q * bool :=
  let elapsed := currentTime - startTime in
  let progress := JS.min (elapsed / duration) 1 in
  let current := start + (endValue - start) * progress in
  (if isFloat endValue then JS.toFixed1 current else inject_Z (Qfloor current),
   JS.lt progress 1).

(** *** Charts *)



(** The canvases of the page, which the script only looks up: whether
    each one exists. *)
Record Canvases := mkCanvases {
  fleet_status_chart : bool;
  success_rate_chart : bool;
  delivery_time_chart : bool;
  utilization_chart : bool;
  mission_distribution_chart : bool }.

(** What every chart initialiser does once its data is ready: nothing
    without the canvas; otherwise the chart registered under [key], if
    any, is destroyed, a new one is created and registered. *)
Definition replaceChart (canvas : bool) (key type : string) (s : State) : State :=
  if canvas then
    let s := match charts s !! key with
             | Some h => destroyChart h s
             | None => s
             end in
    let '(h, s) := newChart type s in
    set_charts (<[key := h]> (charts s)) s
  else s.

(** [initializeFleetStatusChart()]; its labels and data are
    [statusCounts (drone_fleet (appData s))]. *)
Definition initializeFleetStatusChart (page : Canvases) (s : State) : State :=
  replaceChart (fleet_status_chart page) "fleetStatus" "doughnut" s.

Definition initializeSuccessRateChart (page : Canvases) (s : State) : State :=
  replaceChart (success_rate_chart page) "successRate" "line" s.

Definition initializeDeliveryTimeChart (page : Canvases) (s : State) : State :=
  replaceChart (delivery_time_chart page) "deliveryTime" "bar" s.

Definition initializeUtilizationChart (page : Canvases) (s : State) : State :=
  replaceChart (utilization_chart page) "utilization" "radar" s.

Definition initializeMissionDistributionChart (page : Canvases) (s : State) : State :=
  replaceChart (mission_distribution_chart page) "missionDistribution" "pie" s.

(** The callback [initializeAnalytics()] hands to [setTimeout]. *)
Definition initializeAnalytics_callback (page : Canvases) (s : State) : State :=
  initializeMissionDistributionChart page
    (initializeUtilizationChart page
       (initializeDeliveryTimeChart page
          (initializeSuccessRateChart page s))).

(** *** Inventory cards *)

(** A supply as [createInventoryCard] reads it, with the fields of both
    data structures; [None] is a field the object lacks. *)
Module Supply.
Record t := mk {
  item_name : option string;
  item : option string;
  current_stock : option Q;
  stock : option Q;
  min_stock_level : option Q;
  min_threshold : option Q;
  quality_status : option string;
  status : option string;
  unit_of_measure : option string }.
End Supply.

(** [a || b] on strings and on numbers: [a] unless it is absent, empty or
    zero. *)
Definition or_string (a b : option string) : option string :=
  match a with
  | Some (String _ _) => a
  | _ => b
  end.

Definition or_number (a b : option Q) : option Q :=
  match a with
  | Some q => if Qeq_bool q 0 then b else a
  | None => b
  end.

(** A number that arithmetic on such fields can give. *)
Inductive Num :=
  | Finite (q : Q)
  | PlusInfinity
  | MinusInfinity
  | NaN.

(** [(currentStock / (minThreshold * 2)) * 100]. *)
Definition stockPercentage (currentStock minThreshold : option Q) : Num :=
  match currentStock, minThreshold with
  | Some c, Some m =>
      if Qeq_bool (m * 2) 0 then
        (if Qeq_bool c 0 then NaN
         else if JS.lt 0 c then PlusInfinity else MinusInfinity)
      else Finite (c / (m * 2) * 100)
  | _, _ => NaN
  end.

(** [Math.min(100, x)]. *)
Definition min100 (x : Num) : Num :=
  match x with
  | Finite q => Finite (JS.min 100 q)
  | PlusInfinity => Finite 100
  | MinusInfinity => MinusInfinity
  | NaN => NaN
  end.

Record InventoryCard := mkInventoryCard {
  inv_item : option string;
  inv_status : string;
  inv_status_class : string;
  inv_stock : option Q;
  inv_unit : string;
  inv_min : option Q;
  inv_fill_class : string;
  inv_fill_width : Num }.

(** [createInventoryCard(supply)]; [None] when [status.toLowerCase()]
    throws for want of a status. *)
Definition createInventoryCard (supply : Supply.t) : option InventoryCard :=
  let itemName := or_string (Supply.item_name supply) (Supply.item supply) in
  let currentStock := or_number (Supply.current_stock supply) (Supply.stock supply) in
  let minThreshold := or_number (Supply.min_stock_level supply) (Supply.min_threshold supply) in
  match or_string (Supply.quality_status supply) (Supply.status supply) with
  | Some status =>
      Some {| inv_item := itemName;
              inv_status := status;
              inv_status_class := replace_space (toLowerCase status);
              inv_stock := currentStock;
              inv_unit := match or_string (Supply.unit_of_measure supply) (Some "units") with
                          | Some unit => unit
                          | None => "units"
                          end;
              inv_min := minThreshold;
              inv_fill_class := if String.eqb status "Good" then "good" else "low";
              inv_fill_width := min100 (stockPercentage currentStock minThreshold) |}
  | None => None
  end.

(** *** Time labels *)

(** The 30-second timer of the script, on elements [index], [index + 1],
    ... of the [n] time labels left: the minutes it writes into each, as
    ["<minutes> min ago"]. *)
Fixpoint timeLabelsFrom (index n : nat) (s : State) : list Z * State :=
  match n with
  | O => ([], s)
  | S n' =>
      let '(r, s) := Math_random s in
      let minutes := ((Z.of_nat index + 1) * 2 + Qfloor (r * 3))%Z in
      let '(rest, s) := timeLabelsFrom (S index) n' s in
      (minutes :: rest, s)
  end.

Definition updateTimeLabels (n : nat) (s : State) : list Z * State :=
  timeLabelsFrom 0 n s.

(** * Statements and sample data *)

(** ** Battery classification *)

(** The classification with both ends of the middle band included. *)
Definition battery_thresholds_inclusive (d : Drone) : Prop :=
  let c := card_battery_class (createDroneCard d) in
  (c = "high" <-> 60 < drone_battery d) /\
  (c = "medium" <-> 30 <= drone_battery d /\ drone_battery d <= 60) /\
  (c = "low" <-> drone_battery d < 30).

Definition drone_at (battery : Q) : Drone :=
  mkDrone "LLA-001" "Active" "Medical Delivery" "Zone A" battery.

(** ** A sample page, network and random stream *)

Definition page_ids : list string :=
  ["dashboard"; "fleet"; "analytics"; "inventory"; "maintenance"; "tracking"].

(** A page as served: the login form is empty and visible, the main view
    is hidden. *)
Definition samplePage : DOM :=
  {| login_view :=
       {| username_field := Some ""; password_field := Some "";
          login_error := Some (mkErrorDiv "" true);
          login_screen := Some false; main_app := Some true;
          user_name_el := Some ""; user_role_el := Some "" |};
     nav_view :=
       {| pages := page_ids; active_pages := ["dashboard"];
          nav_items := page_ids; active_navs := ["dashboard"];
          action_btns := 4; click_listeners := 0 |};
     data_view :=
       {| success_rate_el := Some 94.5; avg_delivery_el := Some 12.3;
          fleet_grid := Some [];
          flights := [mkFlight (Some 95) (Some "95% Complete") (Some "ETA: 1 min");
                      mkFlight (Some 40) (Some "40% Complete") (Some "ETA: 12 min")];
          component_health_canvas := true |} |}.

(** The user types into the two fields of the login form. *)
Definition typeCredentials (u p : string) (s : State) : State :=
  let v := login_view (dom s) in
  set_login_view
    {| username_field := (fun _ => u) <$> username_field v;
       password_field := (fun _ => p) <$> password_field v;
       login_error := login_error v;
       login_screen := login_screen v; main_app := main_app v;
       user_name_el := user_name_el v; user_role_el := user_role_el v |} s.

(** [Math.random()] returning 0.5 first and 0.05 from then on. *)
Definition sampleRandom (n : nat) : Q :=
  match n with O => 0.5 | _ => 0.05 end.

(** No backend: every request fails. *)
Definition offline : Network := fun e => NetworkError.

(** A backend that serves the fleet status and the KPIs. *)
Definition sampleFleet : list Drone :=
  [mkDrone "LLA-001" "Active" "Medical Delivery" "Zone A" 80;
   mkDrone "LLA-002" "Charging" "Standby" "Base" 45;
   mkDrone "LLA-003" "Maintenance" "None" "Hangar" 30].

Definition online : Network := fun e =>
  match e with
  | PostLogin _ _ => NetworkError
  | GetKpis => Resolved (mkKPI 12 5 96.2 11.8)
  | GetFleetStatus => Resolved sampleFleet
  | GetMedicalInventory => NetworkError
  end.

Definition state0 : State := initialState sampleRandom samplePage.

(** ** Login *)

(** A field of the login form that is absent from the page, or empty. *)
Definition missing_or_empty (field : option string) : Prop :=
  field = None \/ field = Some "".

(** The message [handleLogin] reports for such a form. *)
Definition validation_message (v : LoginView) : string :=
  match username_field v, password_field v with
  | Some _, Some _ => "Please enter both username and password."
  | _, _ => "Login form error. Please refresh the page."
  end.

(** The network path of a login fails: the request is rejected, or the
    response does not carry [success]. *)
Definition network_login_fails (net : Network) (username password : string) : Prop :=
  net (PostLogin username password) = NetworkError \/
  exists response, net (PostLogin username password) = Resolved response /\
                   login_success response = false.

(** The session [handleLogin] builds from an entry of the table. *)
Definition session_of (username : string) (user : DemoUser.t) : User.t :=
  User.mk username (Some (DemoUser.password user)) (DemoUser.role user)
          (DemoUser.full_name user).

(** The error element is on display with the given message. *)
Definition error_shown (message : string) (s : State) : Prop :=
  login_error (login_view (dom s)) = Some (mkErrorDiv message false).

(** A login that changes neither the session, nor the timers, nor the
    cache. *)
Definition login_is_noop (net : Network) (s : State) : Prop :=
  let s' := (run net (handleLogin s)).2 in
  currentUser s' = currentUser s /\
  updateIntervals s' = updateIntervals s /\
  intervals (browser s') = intervals (browser s) /\
  appData s' = appData s.

(** Logged in as [admin] with the main view initialised, then [demo] and
    its password typed into the login form. *)
Definition adminState : State :=
  initializeMainApp
    (run offline (handleLogin (typeCredentials "admin" "admin123" state0))).2.

Definition reloginState : State := typeCredentials "demo" "demo123" adminState.

(** Two states with the same cache, chart and timer registries, running
    timers, live charts and initialization flag. *)
Definition same_timers_and_cache (s s' : State) : Prop :=
  appData s' = appData s /\ charts s' = charts s /\
  updateIntervals s' = updateIntervals s /\
  isInitialized s' = isInitialized s /\
  intervals (browser s') = intervals (browser s) /\
  live_charts (browser s') = live_charts (browser s).

(** ** Logout *)


(** A session under way: logged in as [admin], fleet status and KPIs
    fetched, the tracking page and the maintenance chart opened. *)
Definition sessionState : State :=
  initializeComponentHealthChart
    (initializeTracking
       (run online (fetchKPIs (run online (fetchFleetStatus adminState)).2)).2).

(** Two states that differ in the running timers at most. *)
Definition same_but_intervals (s s' : State) : Prop :=
  currentUser s' = currentUser s /\ charts s' = charts s /\
  updateIntervals s' = updateIntervals s /\ isInitialized s' = isInitialized s /\
  appData s' = appData s /\ dom s' = dom s /\
  live_charts (browser s') = live_charts (browser s).

(** Two states that differ in the live charts at most. *)
Definition same_but_live_charts (s s' : State) : Prop :=
  currentUser s' = currentUser s /\ charts s' = charts s /\
  updateIntervals s' = updateIntervals s /\ isInitialized s' = isInitialized s /\
  appData s' = appData s /\ dom s' = dom s /\
  intervals (browser s') = intervals (browser s).

(** ** Periodic refresh *)

(** Every value [Math.random()] is going to return lies in [0, 1). *)
Definition random_in_range (s : State) : Prop :=
  forall n, 0 <= random (browser s) n /\ random (browser s) n < 1.

(** A number with at most one decimal, as [toFixed(1)] writes them. *)
Definition one_decimal (x : Q) : Prop := JS.toFixed1 x == x.

(** The progress of a flight: the width of its bar, 0 when unset. *)
Definition progress (f : FlightItem) : Q :=
  match bar_width f with
  | Some w => w
  | None => 0
  end.


(** ** More statements and sample data *)

Definition sampleSupplies : list SupplyItem :=
  [mkSupply "Blood Units" 45 20 "units" "Good";
   mkSupply "Insulin" 12 15 "vials" "Low Stock"].

(** A backend that answers every request but the login. *)
Definition backend : Network := fun e =>
  match e with
  | PostLogin _ _ => NetworkError
  | GetKpis => Resolved (mkKPI 12 5 96.2 11.8)
  | GetFleetStatus => Resolved sampleFleet
  | GetMedicalInventory => Resolved sampleSupplies
  end.

(** Two states that differ in the cache and the console at most. *)
Definition same_but_cache_and_console (s s' : State) : Prop :=
  currentUser s' = currentUser s /\ charts s' = charts s /\
  updateIntervals s' = updateIntervals s /\ isInitialized s' = isInitialized s /\
  dom s' = dom s /\
  intervals (browser s') = intervals (browser s) /\
  timeouts (browser s') = timeouts (browser s) /\
  next_timer (browser s') = next_timer (browser s) /\
  live_charts (browser s') = live_charts (browser s) /\
  next_chart (browser s') = next_chart (browser s) /\
  random (browser s') = random (browser s).

(** The login of the trimmed values [username] and [password] goes
    through, as [usr]: the backend accepts it, or the network path fails
    and the pair is in the table. *)
Definition authenticates (net : Network) (username password : string) (usr : User.t) : Prop :=
  (exists response, net (PostLogin username password) = Resolved response /\
     login_success response = true /\ usr = login_user response) \/
  (network_login_fails net username password /\
   exists user, demo_users !! username = Some user /\
     DemoUser.password user = password /\ usr = session_of username user).

(** Two states with the same page, pending timeouts and handle
    counters. *)
Definition same_page_and_timeouts (s s' : State) : Prop :=
  dom s' = dom s /\
  timeouts (browser s') = timeouts (browser s) /\
  next_timer (browser s') = next_timer (browser s) /\
  next_chart (browser s') = next_chart (browser s) /\
  console (browser s') = console (browser s).

(** ** Handles *)

(** Timer handles not yet handed out name no running timer, and the
    registry holds handles that have been handed out. *)
Definition timers_ok (s : State) : Prop :=
  (forall h, (next_timer (browser s) <= h)%nat -> intervals (browser s) !! h = None) /\
  (forall name h, updateIntervals s !! name = Some h -> (h < next_timer (browser s))%nat).

(** The same for chart handles. *)
Definition charts_ok (s : State) : Prop :=
  (forall h, (next_chart (browser s) <= h)%nat -> live_charts (browser s) !! h = None) /\
  (forall name h, charts s !! name = Some h -> (h < next_chart (browser s))%nat).

(** [s'] is [s] with the chart registered under [key] replaced by a new
    one of the given type, when the canvas exists, and [s] itself when it
    does not. *)
Definition chart_replaced (canvas : bool) (key type : string) (s s' : State) : Prop :=
  if canvas then
    let h := next_chart (browser s) in
    charts s' !! key = Some h /\
    live_charts (browser s') !! h = Some type /\
    (forall h0, charts s !! key = Some h0 -> live_charts (browser s') !! h0 = None) /\
    (forall h', h' <> h -> charts s !! key <> Some h' ->
       live_charts (browser s') !! h' = live_charts (browser s) !! h') /\
    (forall name, name <> key -> charts s' !! name = charts s !! name) /\
    (forall h0 t, charts s !! key = Some h0 -> live_charts (browser s) !! h0 = Some t ->
       size (live_charts (browser s')) = size (live_charts (browser s))) /\
    charts_ok s'
  else s' = s.

Definition samplePageCanvases : Canvases := mkCanvases true true true true false.

(** Two states with the same registries, running timers, live charts and
    next chart handle, no timer handle taken back. *)
Definition handles_untouched (s s' : State) : Prop :=
  charts s' = charts s /\ updateIntervals s' = updateIntervals s /\
  intervals (browser s') = intervals (browser s) /\
  live_charts (browser s') = live_charts (browser s) /\
  next_chart (browser s') = next_chart (browser s) /\
  (next_timer (browser s) <= next_timer (browser s'))%nat.

(** Two states that differ in the random stream at most. *)
Definition same_but_random (s s' : State) : Prop :=
  currentUser s' = currentUser s /\ charts s' = charts s /\
  updateIntervals s' = updateIntervals s /\ isInitialized s' = isInitialized s /\
  appData s' = appData s /\ dom s' = dom s /\
  intervals (browser s') = intervals (browser s) /\
  timeouts (browser s') = timeouts (browser s) /\
  next_timer (browser s') = next_timer (browser s) /\
  live_charts (browser s') = live_charts (browser s) /\
  next_chart (browser s') = next_chart (browser s) /\
  console (browser s') = console (browser s).

(** Every running timer but the time-label timer, which has handle 1, is
    in the registry, and every live chart is in the registry. *)
Definition handles_tracked (s : State) : Prop :=
  timers_ok s /\ charts_ok s /\
  intervals (browser s) !! 1%nat = Some (30000%Z, UpdateTimeLabels) /\
  (forall name h, updateIntervals s !! name = Some h -> (2 <= h)%nat) /\
  (forall h x, intervals (browser s) !! h = Some x ->
     h = 1%nat \/ exists name, updateIntervals s !! name = Some h) /\
  (forall h t, live_charts (browser s) !! h = Some t ->
     exists name, charts s !! name = Some h).

(** What happens to the page, as far as the script is embedded here: the
    form is filled in and submitted, the timeout of the login fires, the
    user logs out or navigates, a page initialiser runs, a timer ticks, a
    fetch completes. *)
Inductive Event :=
  | SubmitLogin (u p : string) (net : Network)
  | MainAppTimeout
  | ClickLogout
  | ShowPage (pageId : string)
  | OpenFleet (net : Network)
  | OpenTracking
  | OpenMaintenance
  | OpenAnalytics (page : Canvases)
  | DrawFleetStatus (page : Canvases)
  | TrackingTick
  | SimulationTick
  | FetchKpis (net : Network)
  | FetchFleet (net : Network)
  | FetchSupplies (net : Network).

Definition apply_event (s : State) (e : Event) : State :=
  match e with
  | SubmitLogin u p net => (run net (handleLogin (typeCredentials u p s))).2
  | MainAppTimeout => initializeMainApp s
  | ClickLogout => handleLogout s
  | ShowPage pageId => showPage pageId s
  | OpenFleet net => (run net (initializeFleetManagement s)).2
  | OpenTracking => initializeTracking s
  | OpenMaintenance => initializeComponentHealthChart s
  | OpenAnalytics page => initializeAnalytics_callback page s
  | DrawFleetStatus page => initializeFleetStatusChart page s
  | TrackingTick => updateFlightProgress s
  | SimulationTick => updateDashboardDataLocal s
  | FetchKpis net => (run net (fetchKPIs s)).2
  | FetchFleet net => (run net (fetchFleetStatus s)).2
  | FetchSupplies net => (run net (fetchMedicalSupplies s)).2
  end.

(** The states the page can be in after any sequence of such events. *)
Definition reachable (s : State) : Prop :=
  exists rnd d events, s = foldl apply_event (initialState rnd d) events.

(** The sample session with one flight, arrived. *)
Definition arrivedFlight : FlightItem :=
  mkFlight (Some 100) (Some "100% Complete") (Some "ETA: 1 min").

Definition arrivedState : State :=
  set_data_view
    {| success_rate_el := Some 94.5; avg_delivery_el := Some 12.3;
       fleet_grid := Some []; flights := [arrivedFlight];
       component_health_canvas := true |} sessionState.

(** ** Cards and charts *)

(** An upper-case letter of ASCII. *)
Definition is_upper (c : ascii) : bool :=
  let n := nat_of_ascii c in (65 <=? n)%nat && (n <=? 90)%nat.

Fixpoint count_spaces (s : string) : nat :=
  match s with
  | EmptyString => 0
  | String c s' => (if Ascii.eqb c " " then 1 else 0) + count_spaces s'
  end.

Fixpoint no_upper (s : string) : bool :=
  match s with
  | EmptyString => true
  | String c s' => negb (is_upper c) && no_upper s'
  end.


(** What [animateValue] leaves in the element in the end: the target,
    with one decimal when it is not a whole number. *)
Definition animation_target (endValue : Q) : Q :=
  if isFloat endValue then JS.toFixed1 endValue else endValue.

(** A width that keeps the bar inside its track: nothing above 100. *)
Definition at_most_100 (x : Num) : Prop :=
  match x with
  | Finite q => q <= 100
  | PlusInfinity => False
  | MinusInfinity | NaN => True
  end.

(** A supply in the format of the backend, with its stock and minimum. *)
Definition backendSupply (stock min : Q) : Supply.t :=
  Supply.mk (Some "Insulin") None (Some stock) None (Some min) None
            (Some "Low Stock") None (Some "vials").

(** * Properties *)

(** ** Comparisons and clamps *)

Lemma gt_true (a b : Q) : JS.gt a b = true <-> b < a.
Proof.
  unfold JS.gt. rewrite negb_true_iff, <- not_true_iff_false, Qle_bool_iff.
  split; [apply Qnot_le_lt | apply Qlt_not_le].
Qed.

Lemma gt_false (a b : Q) : JS.gt a b = false <-> a <= b.
Proof. unfold JS.gt. rewrite negb_false_iff. apply Qle_bool_iff. Qed.

Lemma lt_true (a b : Q) : JS.lt a b = true <-> a < b.
Proof. unfold JS.lt. apply (gt_true b a). Qed.


Lemma max_spec (a b : Q) : (a <= b /\ JS.max a b = b) \/ (b < a /\ JS.max a b = a).
Proof.
  unfold JS.max. destruct (Qle_bool a b) eqn:E.
  - left. split; [by apply Qle_bool_iff | done].
  - right. split; [| done]. apply Qnot_le_lt. rewrite <- Qle_bool_iff. congruence.
Qed.

Lemma min_spec (a b : Q) : (a <= b /\ JS.min a b = a) \/ (b < a /\ JS.min a b = b).
Proof.
  unfold JS.min. destruct (Qle_bool a b) eqn:E.
  - left. split; [by apply Qle_bool_iff | done].
  - right. split; [| done]. apply Qnot_le_lt. rewrite <- Qle_bool_iff. congruence.
Qed.

(** ** Battery classification *)

(** C2, counterexample: a drone at exactly 30% gets the class "low", not
    "medium". *)
Lemma battery_30_is_low :
  card_battery_class (createDroneCard (drone_at 30)) = "low" /\
  ~ battery_thresholds_inclusive (drone_at 30).
Proof.
  split; [reflexivity |].
  intros (_ & Hmed & _).
  assert (H : card_battery_class (createDroneCard (drone_at 30)) = "medium").
  { apply Hmed. simpl. split; lra. }
  discriminate H.
Qed.

(** C2, amended: the class is "high" exactly above 60, "medium" exactly
    above 30 and up to 60, and "low" exactly up to 30; so 61 is "high",
    60 is "medium", 30 and 29 are "low". *)
Theorem battery_class_thresholds (d : Drone) :
  let c := card_battery_class (createDroneCard d) in
  (c = "high" <-> 60 < drone_battery d) /\
  (c = "medium" <-> 30 < drone_battery d /\ drone_battery d <= 60) /\
  (c = "low" <-> drone_battery d <= 30) /\
  card_battery_class (createDroneCard (drone_at 61)) = "high" /\
  card_battery_class (createDroneCard (drone_at 60)) = "medium" /\
  card_battery_class (createDroneCard (drone_at 30)) = "low" /\
  card_battery_class (createDroneCard (drone_at 29)) = "low".
Proof.
  simpl. unfold batteryClass.
  destruct (JS.gt (drone_battery d) 60) eqn:E60.
  - apply gt_true in E60.
    repeat split; try done; intros; try lra.
  - apply gt_false in E60.
    destruct (JS.gt (drone_battery d) 30) eqn:E30.
    + apply gt_true in E30. repeat split; try done; intros; try lra.
    + apply gt_false in E30. repeat split; try done; intros; try lra.
Qed.

(** ** Fetching degrades to the cache *)

(** C3: when the request fails each of [fetchKPIs], [fetchFleetStatus] and
    [fetchMedicalSupplies] returns the cached snapshot and leaves the
    cache as it was; when it succeeds the data returned is the new cache;
    and on a failed fleet-status request the fleet grid gets one card per
    drone of the previous snapshot. *)
Theorem fetch_degrades_to_cache (net : Network) (s : State) :
  (net GetKpis = NetworkError ->
     (run net (fetchKPIs s)).1 = kpi_data (appData s) /\
     appData (run net (fetchKPIs s)).2 = appData s) /\
  (forall data, net GetKpis = Resolved data ->
     (run net (fetchKPIs s)).1 = data /\
     kpi_data (appData (run net (fetchKPIs s)).2) = data) /\
  (net GetFleetStatus = NetworkError ->
     (run net (fetchFleetStatus s)).1 = drone_fleet (appData s) /\
     appData (run net (fetchFleetStatus s)).2 = appData s) /\
  (forall data, net GetFleetStatus = Resolved data ->
     (run net (fetchFleetStatus s)).1 = data /\
     drone_fleet (appData (run net (fetchFleetStatus s)).2) = data) /\
  (net GetMedicalInventory = NetworkError ->
     (run net (fetchMedicalSupplies s)).1 = medical_supplies (appData s) /\
     appData (run net (fetchMedicalSupplies s)).2 = appData s) /\
  (forall data, net GetMedicalInventory = Resolved data ->
     (run net (fetchMedicalSupplies s)).1 = data /\
     medical_supplies (appData (run net (fetchMedicalSupplies s)).2) = data) /\
  (net GetFleetStatus = NetworkError ->
   forall cards, fleet_grid (data_view (dom s)) = Some cards ->
     let s' := (run net (initializeFleetManagement s)).2 in
     fleet_grid (data_view (dom s')) = Some (map createDroneCard (drone_fleet (appData s))) /\
     (forall cards', fleet_grid (data_view (dom s')) = Some cards' ->
        length cards' = length (drone_fleet (appData s))) /\
     appData s' = appData s).
Proof.
  split; [intros H; simpl; rewrite H; done |].
  split; [intros data H; simpl; rewrite H; done |].
  split; [intros H; simpl; rewrite H; done |].
  split; [intros data H; simpl; rewrite H; done |].
  split; [intros H; simpl; rewrite H; done |].
  split; [intros data H; simpl; rewrite H; done |].
  intros H cards Hgrid. unfold initializeFleetManagement. rewrite Hgrid.
  simpl. rewrite H. simpl.
  split; [done |]. split; [| done].
  intros cards' [= <-]. apply length_map.
Qed.

Lemma fetch_degrades_to_cache_witness :
  let s := (run online (fetchFleetStatus state0)).2 in
  (run offline (fetchFleetStatus s)).1 = sampleFleet /\
  (run online (fetchKPIs s)).1 = mkKPI 12 5 96.2 11.8 /\
  forall cards', fleet_grid (data_view (dom (run offline (initializeFleetManagement s)).2)) = Some cards' ->
     length cards' = 3%nat.
Proof.
  intros s.
  pose proof (fetch_degrades_to_cache offline s) as (_ & _ & Hf & _ & _ & _ & Hg).
  pose proof (fetch_degrades_to_cache online s) as (_ & Hk & _).
  split; [exact (proj1 (Hf eq_refl)) |].
  split; [exact (proj1 (Hk _ eq_refl)) |].
  exact (proj1 (proj2 (Hg eq_refl [] eq_refl))).
Defined.

(** ** Trimming *)

Lemma trimStart_all_whitespace (s : string) :
  all_whitespace s = true -> trimStart s = "".
Proof.
  induction s as [| c s IH]; simpl; [done |].
  intros [Hc Hs]%andb_true_iff. rewrite Hc. auto.
Qed.

Lemma trimStart_empty (s : string) :
  trimStart s = "" -> all_whitespace s = true.
Proof.
  induction s as [| c s IH]; simpl; [done |].
  destruct (is_whitespace c); simpl; [exact IH | discriminate].
Qed.

Lemma trimStart_head (s : string) (c : ascii) (t : string) :
  trimStart s = String c t -> is_whitespace c = false.
Proof.
  induction s as [| c' s IH]; simpl; [discriminate |].
  destruct (is_whitespace c') eqn:E; [exact IH |].
  intros [= <- _]. exact E.
Qed.


Lemma trimEnd_head (c : ascii) (t : string) :
  is_whitespace c = false -> trimEnd (String c t) <> "".
Proof.
  intros Hc. simpl. rewrite Hc. destruct (trimEnd t); discriminate.
Qed.





Lemma trim_empty_iff (u : string) : trim u = "" <-> all_whitespace u = true.
Proof.
  unfold trim. split.
  - intros H. destruct (trimStart u) as [| c t] eqn:E.
    + by apply trimStart_empty.
    + apply trimStart_head in E. by apply trimEnd_head in H.
  - intros H. by rewrite (trimStart_all_whitespace u H).
Qed.

Lemma truthy_trim (u : string) : truthy (trim u) = negb (all_whitespace u).
Proof.
  destruct (all_whitespace u) eqn:E.
  - apply trim_empty_iff in E. by rewrite E.
  - destruct (trim u) eqn:T; [| done].
    apply trim_empty_iff in T. congruence.
Qed.

(** ** The credential table *)



(** ** Login: validation *)

(** C9: when the username or the password field is absent or empty,
    [handleLogin] ends at once with the validation message on display: no
    request is sent, nothing is logged on the way to the credential table,
    and the session is what it was. *)
Theorem empty_login_is_rejected (s : State) :
  let v := login_view (dom s) in
  missing_or_empty (username_field v) \/ missing_or_empty (password_field v) ->
  let s' := showLoginError (validation_message v) s in
  handleLogin s = Done false s' /\
  (forall net, requests net (handleLogin s) = []) /\
  console (browser s') = console (browser s) /\
  currentUser s' = currentUser s /\
  (forall e, login_error v = Some e -> error_shown (validation_message v) s').
Proof.
  intros v H s'.
  assert (Hrun : handleLogin s = Done false s').
  { unfold handleLogin, s', validation_message. fold v.
    destruct (username_field v) as [u |], (password_field v) as [p |]; try done.
    destruct H as [[H | H] | [H | H]]; try discriminate; injection H as ->.
    - done.
    - cbn [trim trimStart trimEnd truthy negb]. by rewrite orb_true_r. }
  split; [exact Hrun |].
  split; [intros net; by rewrite Hrun |].
  unfold s', showLoginError, error_shown. fold v.
  destruct (login_error v); [| done].
  repeat split.
Qed.

Lemma empty_login_is_rejected_witness :
  let s := typeCredentials "demo" "" state0 in
  handleLogin s = Done false (showLoginError "Please enter both username and password." s) /\
  error_shown "Please enter both username and password."
    (showLoginError "Please enter both username and password." s).
Proof.
  intros s.
  destruct (empty_login_is_rejected s) as (H1 & _ & _ & _ & H2).
  - right. right. reflexivity.
  - split; [exact H1 | exact (H2 _ eq_refl)].
Defined.

(** ** Login: the two authentication paths *)

Section Login.

Variable net : Network.
Variable s : State.
Variables u p : string.
Hypothesis Hu : username_field (login_view (dom s)) = Some u.
Hypothesis Hp : password_field (login_view (dom s)) = Some p.


Hypothesis Hu' : all_whitespace u = false.
Hypothesis Hp' : all_whitespace p = false.

(** Past validation the one request sent is the login request, with the
    trimmed values in its body. *)
Lemma handleLogin_await :
  handleLogin s =
  bind (apiRequest (PostLogin (trim u) (trim p)) s) (fun r s' =>
    match r with
    | Resolved response =>
        if login_success response
        then enterMainApp (set_currentUser (Some (login_user response)) s')
        else localAuth (trim u) (trim p) s'
    | NetworkError => localAuth (trim u) (trim p) s'
    end).
Proof.
  unfold handleLogin. by rewrite Hu, Hp, !truthy_trim, Hu', Hp'.
Qed.



(** When the network path fails the look-up in the table decides, on the
    trimmed values. *)
Lemma handleLogin_fallback :
  network_login_fails net (trim u) (trim p) ->
  exists s0, run net (handleLogin s) = run net (localAuth (trim u) (trim p) s0) /\
    currentUser s0 = currentUser s /\ dom s0 = dom s /\ appData s0 = appData s /\
    charts s0 = charts s /\ updateIntervals s0 = updateIntervals s /\
    isInitialized s0 = isInitialized s /\
    intervals (browser s0) = intervals (browser s) /\
    live_charts (browser s0) = live_charts (browser s).
Proof.
  intros [H | (response & H & Hfail)]; rewrite handleLogin_await; simpl; rewrite H; simpl.
  - exists (console_log "API request error:" s). done.
  - rewrite Hfail. exists s. done.
Qed.

End Login.

(** A pair of the table is accepted: the session carries the entry's role
    and display name, and the form is cleared. *)
Lemma localAuth_accepts (net : Network) (username : string) (user : DemoUser.t) (s : State) :
  demo_users !! username = Some user ->
  let s' := (run net (localAuth username (DemoUser.password user) s)).2 in
  currentUser s' = Some (session_of username user) /\
  username_field (login_view (dom s')) = (fun _ => "") <$> username_field (login_view (dom s)) /\
  password_field (login_view (dom s')) = (fun _ => "") <$> password_field (login_view (dom s)) /\
  appData s' = appData s /\ charts s' = charts s /\
  updateIntervals s' = updateIntervals s /\
  isInitialized s' = isInitialized s /\
  intervals (browser s') = intervals (browser s) /\
  live_charts (browser s') = live_charts (browser s).
Proof.
  intros H. unfold localAuth. rewrite H, String.eqb_refl.
  unfold enterMainApp, showLoginError. simpl.
  destruct (login_screen (login_view (dom s))), (main_app (login_view (dom s)));
    simpl; try done; destruct (login_error (login_view (dom s))) eqn:E; simpl; rewrite ?E; done.
Qed.

(** Any other pair is turned down: the session stays, both fields are
    cleared, and the error element holds the message but is hidden again
    by [clearLoginForm]. *)
Lemma localAuth_rejects (net : Network) (username password : string) (s : State) :
  (forall user, demo_users !! username = Some user -> DemoUser.password user <> password) ->
  let s' := (run net (localAuth username password s)).2 in
  currentUser s' = currentUser s /\
  username_field (login_view (dom s')) = (fun _ => "") <$> username_field (login_view (dom s)) /\
  password_field (login_view (dom s')) = (fun _ => "") <$> password_field (login_view (dom s)) /\
  login_error (login_view (dom s')) =
    (fun _ => mkErrorDiv "Invalid username or password." true) <$> login_error (login_view (dom s)) /\
  appData s' = appData s /\ charts s' = charts s /\
  updateIntervals s' = updateIntervals s /\
  isInitialized s' = isInitialized s /\
  intervals (browser s') = intervals (browser s) /\
  live_charts (browser s') = live_charts (browser s).
Proof.
  intros H. unfold localAuth.
  assert (Hrej : forall s0 : State,
    let s' := (run net (Done false
      (clearLoginForm (showLoginError "Invalid username or password." s0)))).2 in
    currentUser s' = currentUser s0 /\
    username_field (login_view (dom s')) = (fun _ => "") <$> username_field (login_view (dom s0)) /\
    password_field (login_view (dom s')) = (fun _ => "") <$> password_field (login_view (dom s0)) /\
    login_error (login_view (dom s')) =
      (fun _ => mkErrorDiv "Invalid username or password." true) <$> login_error (login_view (dom s0)) /\
    appData s' = appData s0 /\ charts s' = charts s0 /\
    updateIntervals s' = updateIntervals s0 /\
    isInitialized s' = isInitialized s0 /\
    intervals (browser s') = intervals (browser s0) /\
    live_charts (browser s') = live_charts (browser s0)).
  { intros s0. unfold showLoginError.
    destruct (login_error (login_view (dom s0))) eqn:E; simpl; rewrite ?E; done. }
  destruct (demo_users !! username) as [user |] eqn:E.
  - destruct (String.eqb_spec (DemoUser.password user) password) as [Heq | Hne].
    + by destruct (H user eq_refl).
    + apply (Hrej (console_log "API auth failed, trying local auth:" s)).
  - apply (Hrej (console_log "API auth failed, trying local auth:" s)).
Qed.

(** ** Login: trimming *)



(** ** Login: what it leaves alone *)

Lemma showLoginError_frame (message : string) (s : State) :
  same_timers_and_cache s (showLoginError message s) /\
  currentUser (showLoginError message s) = currentUser s.
Proof. unfold showLoginError. by case_match. Qed.

Lemma enterMainApp_frame (net : Network) (s : State) :
  same_timers_and_cache s (run net (enterMainApp s)).2.
Proof.
  unfold enterMainApp. simpl.
  repeat case_match; simpl; try done.
  all: apply (showLoginError_frame _ (clearLoginForm s)).
Qed.

Lemma localAuth_frame (net : Network) (username password : string) (s : State) :
  same_timers_and_cache s (run net (localAuth username password s)).2.
Proof.
  unfold localAuth.
  set (s0 := console_log "API auth failed, trying local auth:" s).
  assert (Hrej : same_timers_and_cache s
    (run net (Done false (clearLoginForm (showLoginError "Invalid username or password." s0)))).2).
  { apply (showLoginError_frame "Invalid username or password." s0). }
  repeat case_match; try exact Hrej.
  match goal with |- context [enterMainApp ?x] => apply (enterMainApp_frame net x) end.
Qed.

Lemma handleLogin_frame (net : Network) (s : State) :
  same_timers_and_cache s (run net (handleLogin s)).2.
Proof.
  unfold handleLogin.
  repeat case_match; simpl; try apply showLoginError_frame.
  destruct (net _) as [| response]; simpl.
  - apply (localAuth_frame net _ _ (console_log "API request error:" s)).
  - destruct (login_success response).
    + match goal with |- context [enterMainApp ?x] => apply (enterMainApp_frame net x) end.
    + apply localAuth_frame.
Qed.

(** ** Login: fallback to the credential table *)

(** With the network path failing, the table decides: a pair of the table
    is logged in with the entry's role and display name; any other pair
    leaves the session alone and clears both fields, and the message
    written to the error element is hidden again at once. *)
Lemma fallback_login (net : Network) (s : State) (u p : string) :
  username_field (login_view (dom s)) = Some u ->
  password_field (login_view (dom s)) = Some p ->
  all_whitespace u = false -> all_whitespace p = false ->
  network_login_fails net (trim u) (trim p) ->
  let s' := (run net (handleLogin s)).2 in
  (forall user, demo_users !! trim u = Some user -> DemoUser.password user = trim p ->
     currentUser s' = Some (session_of (trim u) user) /\
     User.role (session_of (trim u) user) = DemoUser.role user /\
     User.full_name (session_of (trim u) user) = DemoUser.full_name user) /\
  ((forall user, demo_users !! trim u = Some user -> DemoUser.password user <> trim p) ->
     currentUser s' = currentUser s /\
     username_field (login_view (dom s')) = Some "" /\
     password_field (login_view (dom s')) = Some "" /\
     login_error (login_view (dom s')) =
       (fun _ => mkErrorDiv "Invalid username or password." true)
         <$> login_error (login_view (dom s))).
Proof.
  intros Hu Hp Hu' Hp' Hnet s'.
  destruct (handleLogin_fallback net s u p Hu Hp Hu' Hp' Hnet) as (s0 & Hrun & Hcur & Hdom & _).
  subst s'. rewrite Hrun. split.
  - intros user Huser Hpw. split; [| done].
    rewrite <- Hpw. by apply localAuth_accepts.
  - intros Hno.
    destruct (localAuth_rejects net (trim u) (trim p) s0 Hno) as (H1 & H2 & H3 & H4 & _).
    rewrite H1, H2, H3, H4, Hcur, Hdom, Hu, Hp. done.
Qed.

(** C4, at an input where the code falls short of it: with no backend,
    [demo] with a wrong password is turned down, the session stays empty
    and both fields are cleared, but the error element, its text set, is
    hidden again by [clearLoginForm]: no message is on display. *)
Theorem invalid_login_error_hidden :
  let s := typeCredentials "demo" "wrong" state0 in
  let s' := (run offline (handleLogin s)).2 in
  currentUser s' = None /\
  username_field (login_view (dom s')) = Some "" /\
  password_field (login_view (dom s')) = Some "" /\
  login_error (login_view (dom s')) = Some (mkErrorDiv "Invalid username or password." true) /\
  ~ error_shown "Invalid username or password." s'.
Proof.
  cbv zeta.
  assert (H : login_error
            (login_view (dom (run offline (handleLogin (typeCredentials "demo" "wrong" state0))).2))
          = Some (mkErrorDiv "Invalid username or password." true)) by reflexivity.
  repeat split; try reflexivity.
  unfold error_shown. rewrite H. discriminate.
Qed.

(** ** Login while logged in *)

(** C5, counterexample: logged in as [admin], a second login as [demo]
    replaces the session. *)
Lemma relogin_replaces_session :
  currentUser reloginState =
    Some (User.mk "admin" (Some "admin123") "Administrator" "System Administrator") /\
  isInitialized reloginState = true /\
  currentUser (run offline (handleLogin reloginState)).2 =
    Some (User.mk "demo" (Some "demo123") "Observer" "Demo User") /\
  ~ login_is_noop offline reloginState.
Proof.
  assert (H1 : currentUser reloginState =
    Some (User.mk "admin" (Some "admin123") "Administrator" "System Administrator"))
    by reflexivity.
  assert (H2 : currentUser (run offline (handleLogin reloginState)).2 =
    Some (User.mk "demo" (Some "demo123") "Observer" "Demo User")) by reflexivity.
  repeat split; try assumption; try reflexivity.
  intros (H & _). rewrite H1, H2 in H. discriminate H.
Qed.

Lemma enterMainApp_currentUser (net : Network) (s : State) :
  currentUser (run net (enterMainApp s)).2 = currentUser s.
Proof.
  unfold enterMainApp. simpl. repeat case_match; simpl; try done.
  all: apply (showLoginError_frame _ (clearLoginForm s)).
Qed.

(** A login the backend accepts makes the [user] of the response the
    session. *)
Lemma api_login (net : Network) (s : State) (u p : string) (response : LoginResponse) :
  username_field (login_view (dom s)) = Some u ->
  password_field (login_view (dom s)) = Some p ->
  all_whitespace u = false -> all_whitespace p = false ->
  net (PostLogin (trim u) (trim p)) = Resolved response ->
  login_success response = true ->
  currentUser (run net (handleLogin s)).2 = Some (login_user response).
Proof.
  intros Hu Hp Hu' Hp' Hnet Hok.
  rewrite (handleLogin_await s u p Hu Hp Hu' Hp'). simpl. rewrite Hnet. simpl.
  rewrite Hok. by rewrite enterMainApp_currentUser.
Qed.

(** C5, amended: a login attempted while logged in is carried out like
    any other, and replaces the session when it authenticates, by the
    backend or by the table; it leaves the timers and the cached data
    unchanged, and the initialization flag makes the [initializeMainApp]
    it schedules a no-op. *)
Theorem relogin_keeps_timers_and_cache (net : Network) (s : State) :
  isInitialized s = true ->
  let s' := (run net (handleLogin s)).2 in
  updateIntervals s' = updateIntervals s /\
  intervals (browser s') = intervals (browser s) /\
  appData s' = appData s /\
  isInitialized s' = true /\
  initializeMainApp s' = s' /\
  (forall u p, username_field (login_view (dom s)) = Some u ->
     password_field (login_view (dom s)) = Some p ->
     all_whitespace u = false -> all_whitespace p = false ->
     (forall response, net (PostLogin (trim u) (trim p)) = Resolved response ->
        login_success response = true -> currentUser s' = Some (login_user response)) /\
     (network_login_fails net (trim u) (trim p) ->
      forall user, demo_users !! trim u = Some user -> DemoUser.password user = trim p ->
        currentUser s' = Some (session_of (trim u) user))).
Proof.
  intros Hinit s'.
  destruct (handleLogin_frame net s) as (Ha & _ & Hu & Hi & Ht & _).
  fold s' in Ha, Hu, Hi, Ht.
  assert (Hinit' : isInitialized s' = true) by congruence.
  split; [done |]. split; [done |]. split; [done |]. split; [done |].
  split; [unfold initializeMainApp; by rewrite Hinit' |].
  intros u p Hfu Hfp Hu' Hp'. split.
  - intros response Hnet Hok. by apply (api_login net s u p).
  - intros Hnet user Huser Hpw.
    destruct (fallback_login net s u p Hfu Hfp Hu' Hp' Hnet) as (Hacc & _).
    exact (proj1 (Hacc user Huser Hpw)).
Qed.

Lemma relogin_keeps_timers_and_cache_witness :
  let s' := (run offline (handleLogin reloginState)).2 in
  updateIntervals s' = updateIntervals reloginState /\
  appData s' = appData reloginState /\
  initializeMainApp s' = s' /\
  currentUser s' = Some (User.mk "demo" (Some "demo123") "Observer" "Demo User").
Proof.
  intros s'.
  destruct (relogin_keeps_timers_and_cache offline reloginState eq_refl)
    as (H1 & _ & H2 & _ & H3 & H4).
  split; [exact H1 |]. split; [exact H2 |]. split; [exact H3 |].
  destruct (H4 "demo" "demo123" eq_refl eq_refl eq_refl eq_refl) as (_ & H5).
  exact (H5 (or_introl eq_refl) (DemoUser.mk "demo123" "Observer" "Demo User") eq_refl eq_refl).
Defined.

(** ** Logout *)

Lemma clearIntervals_fold (l : list (string * nat)) (s : State) :
  let s' := foldr (fun kv s => if bool_decide (kv.2 = 0%nat) then s else clearInterval kv.2 s) s l in
  same_but_intervals s s' /\
  (forall name h, (name, h) ∈ l -> h <> 0%nat -> intervals (browser s') !! h = None) /\
  (forall h, (forall name, (name, h) ∉ l) ->
     intervals (browser s') !! h = intervals (browser s) !! h) /\
  (forall h, intervals (browser s) !! h = None -> intervals (browser s') !! h = None).
Proof.
  induction l as [| [name0 h0] l IH]; simpl.
  - repeat split; try done. intros name h H. by apply elem_of_nil in H.
  - destruct IH as (Hsame & Hgone & Hkept & Hnone).
    set (s0 := foldr _ s l) in *.
    case_bool_decide as Hz; simpl in Hz.
    + split; [exact Hsame |]. split; [| split].
      * intros name h [[= -> ->] | Hin]%elem_of_cons Hnz; [done | by eapply Hgone].
      * intros h Hout. apply Hkept. intros name Hin. apply (Hout name). by right.
      * exact Hnone.
    + split; [exact Hsame |]. split; [| split].
      * intros name h Hin Hnz. simpl. destruct (decide (h = h0)) as [-> | Hne].
        -- apply lookup_delete_eq.
        -- rewrite lookup_delete_ne by done.
           apply elem_of_cons in Hin as [[= -> ->] | Hin]; [done | by eapply Hgone].
      * intros h Hout. simpl. rewrite lookup_delete_ne.
        -- apply Hkept. intros name Hin. apply (Hout name). by right.
        -- intros ->. apply (Hout name0). by left.
      * intros h Hn. simpl. destruct (decide (h = h0)) as [-> | Hne].
        -- apply lookup_delete_eq.
        -- rewrite lookup_delete_ne by done. by apply Hnone.
Qed.

Lemma destroyCharts_fold (l : list (string * nat)) (s : State) :
  let s' := foldr (fun kv s => destroyChart kv.2 s) s l in
  same_but_live_charts s s' /\
  (forall name h, (name, h) ∈ l -> live_charts (browser s') !! h = None).
Proof.
  induction l as [| [name0 h0] l IH]; simpl.
  - split; [done |]. intros name h H. by apply elem_of_nil in H.
  - destruct IH as (Hsame & Hgone). split; [exact Hsame |].
    intros name h Hin. destruct (decide (h = h0)) as [-> | Hne].
    + apply lookup_delete_eq.
    + rewrite lookup_delete_ne by done.
      apply elem_of_cons in Hin as [[= -> ->] | Hin]; [done | by eapply Hgone].
Qed.

Lemma clearAllIntervals_spec (s : State) :
  let s' := clearAllIntervals s in
  same_but_intervals s s' /\
  (forall name h, updateIntervals s !! name = Some h -> h <> 0%nat ->
     intervals (browser s') !! h = None) /\
  (forall h, (forall name, updateIntervals s !! name <> Some h) ->
     intervals (browser s') !! h = intervals (browser s) !! h) /\
  (forall h, intervals (browser s) !! h = None -> intervals (browser s') !! h = None).
Proof.
  destruct (clearIntervals_fold (map_to_list (updateIntervals s)) s) as (H1 & H2 & H3 & H4).
  split; [exact H1 |]. split; [| split; [| exact H4]].
  - intros name h Hin. apply (H2 name h). by apply elem_of_map_to_list.
  - intros h Hout. apply H3. intros name Hin%elem_of_map_to_list. by apply (Hout name).
Qed.

Lemma destroyAllCharts_spec (s : State) :
  let s' := destroyAllCharts s in
  same_but_live_charts s s' /\
  (forall name h, charts s !! name = Some h -> live_charts (browser s') !! h = None).
Proof.
  destruct (destroyCharts_fold (map_to_list (charts s)) s) as (H1 & H2).
  split; [exact H1 |].
  intros name h Hin. apply (H2 name h). by apply elem_of_map_to_list.
Qed.

Lemma showPage_frame (pageId : string) (s : State) :
  same_timers_and_cache s (showPage pageId s) /\
  currentUser (showPage pageId s) = currentUser s /\
  login_view (dom (showPage pageId s)) = login_view (dom s).
Proof.
  unfold showPage. cbv zeta.
  destruct (bool_decide (pageId ∈ pages (nav_view (dom _))));
    destruct (bool_decide (pageId ∈ nav_items (nav_view (dom _)))); done.
Qed.

Lemma same_timers_and_cache_trans (s1 s2 s3 : State) :
  same_timers_and_cache s1 s2 -> same_timers_and_cache s2 s3 ->
  same_timers_and_cache s1 s3.
Proof. unfold same_timers_and_cache. intuition congruence. Qed.

Lemma clearLoginForm_frame (s : State) :
  same_timers_and_cache s (clearLoginForm s) /\
  currentUser (clearLoginForm s) = currentUser s.
Proof. done. Qed.

(** What follows the two loops of [handleLogout] touches neither the
    session, nor the registries, nor the timers, the charts or the cache. *)
Lemma handleLogout_tail (s : State) :
  let s3 := set_charts ∅ (destroyAllCharts
              (set_updateIntervals ∅ (clearAllIntervals (set_currentUser None s)))) in
  same_timers_and_cache s3 (handleLogout s) /\
  currentUser (handleLogout s) = currentUser s3.
Proof.
  intros s3. unfold handleLogout. fold s3. cbv zeta.
  set (s4 := match login_screen (login_view (dom s3)) with Some _ => _ | None => _ end).
  assert (H4 : same_timers_and_cache s3 s4 /\ currentUser s4 = currentUser s3).
  { unfold s4. repeat case_match; done. }
  destruct H4 as (H4 & H4c).
  destruct (clearLoginForm_frame s4) as (H5 & H5c).
  destruct (showPage_frame "dashboard" (clearLoginForm s4)) as (H6 & H6c & _).
  set (s6 := showPage "dashboard" (clearLoginForm s4)) in *.
  assert (H7 : same_timers_and_cache s3 s6 /\ currentUser s6 = currentUser s3).
  { split; [| congruence].
    eapply same_timers_and_cache_trans; [exact H4 |].
    eapply same_timers_and_cache_trans; [exact H5 | exact H6]. }
  case_match; [| exact H7]. exact H7.
Qed.

(** [handleLogout], field by field. *)
Lemma handleLogout_effect (s : State) :
  let s' := handleLogout s in
  currentUser s' = None /\ updateIntervals s' = ∅ /\ charts s' = ∅ /\
  appData s' = appData s /\ isInitialized s' = isInitialized s /\
  (forall name h, updateIntervals s !! name = Some h -> h <> 0%nat ->
     intervals (browser s') !! h = None) /\
  (forall h, (forall name, updateIntervals s !! name <> Some h) ->
     intervals (browser s') !! h = intervals (browser s) !! h) /\
  (forall name h, charts s !! name = Some h -> live_charts (browser s') !! h = None).
Proof.
  intros s'.
  destruct (handleLogout_tail s) as ((Ha & Hc & Hu & Hi & Ht & Hl) & Hcur).
  fold s' in Ha, Hc, Hu, Hi, Ht, Hl, Hcur.
  set (s1 := set_currentUser None s) in *.
  set (s2 := set_updateIntervals ∅ (clearAllIntervals s1)) in *.
  destruct (clearAllIntervals_spec s1)
    as ((C1 & C2 & _ & C4 & C5 & _ & C7) & Cgone & Ckept & _).
  destruct (destroyAllCharts_spec s2) as ((D1 & _ & D3 & D4 & D5 & _ & D7) & Dgone).
  change (charts s2) with (charts (clearAllIntervals s1)) in Dgone.
  rewrite C2 in Dgone.
  change (appData (set_charts ∅ (destroyAllCharts s2)))
    with (appData (destroyAllCharts s2)) in Ha.
  change (isInitialized (set_charts ∅ (destroyAllCharts s2)))
    with (isInitialized (destroyAllCharts s2)) in Hi.
  change (intervals (browser (set_charts ∅ (destroyAllCharts s2))))
    with (intervals (browser (destroyAllCharts s2))) in Ht.
  change (live_charts (browser (set_charts ∅ (destroyAllCharts s2))))
    with (live_charts (browser (destroyAllCharts s2))) in Hl.
  change (intervals (browser s2)) with (intervals (browser (clearAllIntervals s1))) in D7.
  change (appData s2) with (appData (clearAllIntervals s1)) in D5.
  change (isInitialized s2) with (isInitialized (clearAllIntervals s1)) in D4.
  change (currentUser (set_charts ∅ (destroyAllCharts s2)))
    with (currentUser (destroyAllCharts s2)) in Hcur.
  change (updateIntervals (set_charts ∅ (destroyAllCharts s2)))
    with (updateIntervals (destroyAllCharts s2)) in Hu.
  change (currentUser s2) with (currentUser (clearAllIntervals s1)) in D1.
  split; [by rewrite Hcur, D1, C1 |]. split; [by rewrite Hu, D3 |]. split; [exact Hc |].
  split; [by rewrite Ha, D5, C5 |]. split; [by rewrite Hi, D4, C4 |].
  split; [| split].
  - intros name h Hin Hnz. rewrite Ht, D7. by apply (Cgone name h).
  - intros h Hout. rewrite Ht, D7. by apply Ckept.
  - intros name h Hin. rewrite Hl. by apply (Dgone name h).
Qed.




(** ** Rounding *)

(** Linear arithmetic over [Q], with division by ten as a product. *)
Ltac qlra := unfold Qdiv in *; change (/ 10) with (1 # 10) in *; lra.

Lemma Qfloor_between (x : Q) (a b : Z) :
  inject_Z a <= x -> x < inject_Z (b + 1) -> (a <= Qfloor x <= b)%Z.
Proof.
  intros Ha Hb. split.
  - rewrite <- (Qfloor_Z a). by apply Qfloor_resp_le.
  - assert (H : (Qfloor x < b + 1)%Z); [| lia].
    rewrite Zlt_Qlt. eapply Qle_lt_trans; [apply Qfloor_le | exact Hb].
Qed.

Lemma toFixed1_nonneg (x : Q) :
  0 <= x -> JS.toFixed1 x = inject_Z (Qfloor (x * 10 + (1 # 2))) / 10.
Proof.
  intros H. unfold JS.toFixed1.
  destruct (Qle_bool 0 x) eqn:E; [done |].
  apply Qle_bool_iff in H. congruence.
Qed.

(** [toFixed(1)] keeps a number between two multiples of one tenth. *)
Lemma toFixed1_between (x : Q) (a b : Z) :
  0 <= x -> inject_Z a / 10 <= x -> x <= inject_Z b / 10 ->
  inject_Z a / 10 <= JS.toFixed1 x /\ JS.toFixed1 x <= inject_Z b / 10.
Proof.
  intros H0 Ha Hb. rewrite (toFixed1_nonneg x H0).
  destruct (Qfloor_between (x * 10 + (1 # 2)) a b) as [H1 H2].
  - qlra.
  - rewrite inject_Z_plus. change (inject_Z 1) with 1. qlra.
  - rewrite Zle_Qle in H1, H2. qlra.
Qed.

(** A number within [k] tenths and a half of a one-decimal number is
    written within [k] tenths of it. *)
Lemma toFixed1_near (x cur : Q) (k : Z) :
  0 <= x -> 0 <= cur -> one_decimal cur ->
  cur - inject_Z k / 10 - 0.05 <= x -> x < cur + inject_Z k / 10 + 0.05 ->
  cur - inject_Z k / 10 <= JS.toFixed1 x /\ JS.toFixed1 x <= cur + inject_Z k / 10.
Proof.
  intros H0 Hc Hone Hlo Hhi. unfold one_decimal in Hone.
  rewrite (toFixed1_nonneg cur Hc) in Hone.
  set (m := Qfloor (cur * 10 + (1 # 2))) in *.
  rewrite (toFixed1_nonneg x H0).
  destruct (Qfloor_between (x * 10 + (1 # 2)) (m - k) (m + k)) as [H1 H2].
  - unfold Zminus. rewrite inject_Z_plus, inject_Z_opp. qlra.
  - rewrite !inject_Z_plus. change (inject_Z 1) with 1. qlra.
  - rewrite Zle_Qle in H1, H2.
    unfold Zminus in H1. rewrite inject_Z_plus, inject_Z_opp in H1.
    rewrite inject_Z_plus in H2. qlra.
Qed.

Lemma truncate_below (w : Q) (n : Z) :
  (0 < n)%Z -> w < inject_Z n -> (JS.truncate w < n)%Z.
Proof.
  intros Hn Hw. unfold JS.truncate. destruct w as [p q]. simpl.
  unfold Qlt in Hw. simpl in Hw. rewrite Z.mul_1_r, Z.mul_comm in Hw.
  destruct (Z.le_gt_cases 0 p) as [Hp | Hp].
  - apply Z.quot_lt_upper_bound; [exact Hp | done | exact Hw].
  - assert (p ÷ Z.pos q <= 0)%Z; [| lia].
    apply Z.quot_le_upper_bound; [done | lia].
Qed.

Lemma truncate_le (w : Q) : 0 <= w -> inject_Z (JS.truncate w) <= w.
Proof.
  intros Hw. unfold JS.truncate.
  assert (Hp : (0 <= Qnum w)%Z).
  { unfold Qle in Hw. simpl in Hw. lia. }
  rewrite Z.quot_div_nonneg by lia.
  destruct w as [n d]. apply (Qfloor_le (n # d)).
Qed.

(** ** Tracking *)

Lemma Math_random_range (s : State) :
  random_in_range s ->
  (0 <= (Math_random s).1 /\ (Math_random s).1 < 1) /\ random_in_range (Math_random s).2.
Proof.
  intros H. split; [apply (H 0%nat) |]. intros n. apply (H (S n)).
Qed.

Lemma currentWidth_below (f : FlightItem) :
  progress f < 100 -> (currentWidth f < 100)%Z.
Proof.
  unfold progress, currentWidth. destruct (bar_width f) as [w |]; [| done].
  intros H. by apply truncate_below.
Qed.

Lemma updateFlight_range (f : FlightItem) (s : State) :
  random_in_range s -> random_in_range (updateFlight f s).2.
Proof.
  intros H. unfold updateFlight. destruct (currentWidth f <? 100)%Z; [| done].
  apply (Math_random_range s H).
Qed.

(** Each bar is updated by the loop body, in some state of the random
    stream. *)
Lemma updateFlights_lookup (fs : list FlightItem) (s : State) (i : nat) (f : FlightItem) :
  fs !! i = Some f ->
  exists s_i, (updateFlights fs s).1 !! i = Some (updateFlight f s_i).1 /\
              (random_in_range s -> random_in_range s_i).
Proof.
  revert s i. induction fs as [| f0 fs IH]; intros s i Hi; [done |].
  simpl. destruct (updateFlight f0 s) as [f0' s0] eqn:E0.
  destruct (updateFlights fs s0) as [fs' s1] eqn:E1.
  destruct i as [| i]; simpl in *.
  - injection Hi as ->. exists s. by rewrite E0.
  - destruct (IH s0 i Hi) as (s_i & Hlook & Hrange).
    rewrite E1 in Hlook. exists s_i. split; [exact Hlook |].
    intros H. apply Hrange.
    change s0 with (f0', s0).2. rewrite <- E0. by apply updateFlight_range.
Qed.

Lemma updateFlights_range (fs : list FlightItem) (s : State) :
  random_in_range s -> random_in_range (updateFlights fs s).2.
Proof.
  revert s. induction fs as [| f0 fs IH]; intros s H; [done |].
  simpl. destruct (updateFlight f0 s) as [f0' s0] eqn:E0.
  specialize (IH s0). destruct (updateFlights fs s0) as [fs' s1] eqn:E1.
  simpl in *. apply IH.
  change s0 with (f0', s0).2. rewrite <- E0. by apply updateFlight_range.
Qed.

Lemma updateFlightProgress_flights (s : State) :
  flights (data_view (dom (updateFlightProgress s))) =
    (updateFlights (flights (data_view (dom s))) s).1 /\
  (random_in_range s -> random_in_range (updateFlightProgress s)).
Proof.
  unfold updateFlightProgress.
  pose proof (updateFlights_range (flights (data_view (dom s))) s) as Hr.
  destruct (updateFlights (flights (data_view (dom s))) s) as [fs s'].
  split; [done |]. intros H. apply (Hr H).
Qed.

(** C7: on a tracking tick every flight whose progress is below 100 gets
    the ETA text of [max(1, round((100 - progress) * 0.2))] minutes, where
    progress is the bar's width after the tick. *)
Theorem eta_recomputed (s : State) (i : nat) (f : FlightItem) :
  flights (data_view (dom s)) !! i = Some f ->
  progress f < 100 ->
  exists f', flights (data_view (dom (updateFlightProgress s))) !! i = Some f' /\
    flight_eta f' =
      (fun _ => "ETA: " +:+ pretty (Z.max 1 (JS.round ((100 - progress f') * 0.2))) +:+ " min")
        <$> flight_eta f.
Proof.
  intros Hi Hlt.
  destruct (updateFlightProgress_flights s) as (-> & _).
  destruct (updateFlights_lookup _ s i f Hi) as (s_i & Hlook & _).
  eexists. split; [exact Hlook |].
  unfold updateFlight.
  apply currentWidth_below, Z.ltb_lt in Hlt. rewrite Hlt.
  reflexivity.
Qed.

Lemma eta_recomputed_witness :
  exists f', flights (data_view (dom (updateFlightProgress sessionState))) !! 1%nat = Some f' /\
    progress f' == 40.25 /\ flight_eta f' = Some "ETA: 12 min".
Proof.
  destruct (eta_recomputed sessionState 1 (mkFlight (Some 40) (Some "40% Complete")
              (Some "ETA: 12 min"))) as (f' & Hf & Heta).
  - vm_compute. reflexivity.
  - vm_compute. reflexivity.
  - exists f'. split; [exact Hf |].
    assert (E : flights (data_view (dom (updateFlightProgress sessionState))) !! 1%nat =
                Some (mkFlight (Some (JS.min 100 (inject_Z 40 + 0.05 * 5)))
                        (Some "40% Complete") (Some "ETA: 12 min")))
      by (vm_compute; reflexivity).
    rewrite E in Hf. injection Hf as <-.
    split; vm_compute; reflexivity.
Defined.

Lemma currentWidth_le (f : FlightItem) :
  0 <= progress f ->
  0 <= inject_Z (currentWidth f) /\ inject_Z (currentWidth f) <= progress f.
Proof.
  unfold currentWidth, progress. destruct (bar_width f) as [w |]; [| done].
  intros H0. split; [| by apply truncate_le].
  change 0 with (inject_Z 0). rewrite <- Zle_Qle.
  unfold JS.truncate. apply Z.quot_pos; [| done].
  unfold Qle in H0. simpl in H0. lia.
Qed.

Lemma currentWidth_100 (f : FlightItem) :
  progress f == 100 -> currentWidth f = 100%Z.
Proof.
  unfold currentWidth, progress. destruct (bar_width f) as [[p q] |]; [| done].
  unfold Qeq, JS.truncate. simpl. rewrite Z.mul_1_r. intros ->.
  by apply Z.quot_mul.
Qed.

(** One bar, one tick: the new width is at most 100 and at most 5 above
    the old one, and not below the integer part of the old one, which is
    where the loop body starts from; a bar at 100 is left alone. *)
Lemma updateFlight_bounds (f : FlightItem) (s : State) :
  random_in_range s -> 0 <= progress f -> progress f <= 100 ->
  let f' := (updateFlight f s).1 in
  0 <= progress f' /\ progress f' <= 100 /\
  progress f' <= progress f + 5 /\
  inject_Z (currentWidth f) <= progress f' /\
  (progress f == 100 -> f' = f).
Proof.
  intros Hr H0 H100.
  destruct (currentWidth_le f H0) as [Hcw0 Hcw].
  destruct (Math_random_range s Hr) as ((Hr0 & Hr1) & _).
  unfold updateFlight. destruct (currentWidth f <? 100)%Z eqn:E.
  - destruct (Math_random s) as [r s'] eqn:Er. simpl in Hr0, Hr1.
    cbn [fst snd]. unfold progress at 1 2 3 5. cbn [bar_width].
    assert (Hne : ~ progress f == 100).
    { intros Heq%currentWidth_100. rewrite Heq in E. discriminate E. }
    destruct (min_spec 100 (inject_Z (currentWidth f) + r * 5)) as [[Hm ->] | [Hm ->]];
      repeat split; try lra; try done.
  - simpl. repeat split; try lra; try done.
Qed.

(** One tick, one flight. *)
Lemma tick_advance (s : State) (i : nat) (f : FlightItem) :
  random_in_range s ->
  flights (data_view (dom s)) !! i = Some f ->
  0 <= progress f -> progress f <= 100 ->
  exists f', flights (data_view (dom (updateFlightProgress s))) !! i = Some f' /\
    0 <= progress f' /\ progress f' <= 100 /\
    progress f' <= progress f + 5 /\
    inject_Z (currentWidth f) <= progress f' /\
    (progress f == 100 -> f' = f).
Proof.
  intros Hr Hi H0 H100.
  destruct (updateFlightProgress_flights s) as (-> & _).
  destruct (updateFlights_lookup _ s i f Hi) as (s_i & Hlook & Hri).
  eexists. split; [exact Hlook |].
  apply updateFlight_bounds; auto.
Qed.

(** Three ticks advance a flight by at most 15 points, and not past 100. *)
Lemma three_ticks_advance (s : State) (i : nat) (f : FlightItem) :
  random_in_range s ->
  flights (data_view (dom s)) !! i = Some f ->
  0 <= progress f -> progress f <= 100 ->
  exists f3,
    flights (data_view (dom
      (updateFlightProgress (updateFlightProgress (updateFlightProgress s))))) !! i = Some f3 /\
    progress f3 <= 100 /\ progress f3 <= progress f + 15.
Proof.
  intros Hr Hi H0 H100.
  destruct (tick_advance s i f Hr Hi H0 H100) as (f1 & Hi1 & H01 & H1001 & Hadv1 & _).
  pose proof (proj2 (updateFlightProgress_flights s) Hr) as Hr1.
  destruct (tick_advance _ i f1 Hr1 Hi1 H01 H1001) as (f2 & Hi2 & H02 & H1002 & Hadv2 & _).
  pose proof (proj2 (updateFlightProgress_flights _) Hr1) as Hr2.
  destruct (tick_advance _ i f2 Hr2 Hi2 H02 H1002) as (f3 & Hi3 & H03 & H1003 & Hadv3 & _).
  exists f3. split; [exact Hi3 |]. split; lra.
Qed.

Lemma sessionState_random : random_in_range sessionState.
Proof. intros n. destruct n as [| n]; vm_compute; split; congruence. Qed.

(** C8, at an input where the code falls short of it: a bar at 95% moves
    to 97.5% on a tick with [Math.random()] at 0.5, and back to 97.25% on
    the next tick with [Math.random()] at 0.05, because the loop body
    starts from [parseInt] of the width, 97; the label goes from 98% to
    97%. *)
Theorem progress_goes_back :
  let s1 := updateFlightProgress sessionState in
  let s2 := updateFlightProgress s1 in
  random_in_range sessionState /\
  exists f0 f1 f2,
    flights (data_view (dom sessionState)) !! 0%nat = Some f0 /\
    flights (data_view (dom s1)) !! 0%nat = Some f1 /\
    flights (data_view (dom s2)) !! 0%nat = Some f2 /\
    progress f0 == 95 /\ progress f1 == 97.5 /\ progress f2 == 97.25 /\
    progress f2 < progress f1 /\
    progress_text f1 = Some "98% Complete" /\
    progress_text f2 = Some "97% Complete".
Proof.
  split; [exact sessionState_random |].
  eexists _, _, _.
  split; [vm_compute; reflexivity |].
  split; [vm_compute; reflexivity |].
  split; [vm_compute; reflexivity |].
  repeat split; vm_compute; reflexivity.
Qed.

(** ** Fallback simulation of the dashboard *)

Lemma newSuccessRate_bounds (cur r : Q) :
  0 <= r -> r < 1 ->
  (90 <= newSuccessRate cur r /\ newSuccessRate cur r <= 100) /\
  (90 <= cur -> cur <= 100 ->
     cur - 0.05 <= newSuccessRate cur r /\ newSuccessRate cur r < cur + 0.05).
Proof.
  intros H0 H1. unfold newSuccessRate, variation.
  destruct (min_spec 100 (cur + (r - 0.5) * 0.1)) as [[Hm ->] | [Hm ->]];
    [destruct (max_spec 90 100) as [[Hx ->] | [Hx ->]]
    | destruct (max_spec 90 (cur + (r - 0.5) * 0.1)) as [[Hx ->] | [Hx ->]]];
    repeat split; intros; lra.
Qed.

Lemma newDeliveryTime_bounds (cur r : Q) :
  0 <= r -> r < 1 ->
  (8 <= newDeliveryTime cur r /\ newDeliveryTime cur r <= 20) /\
  (8 <= cur -> cur <= 20 ->
     cur - 0.25 <= newDeliveryTime cur r /\ newDeliveryTime cur r < cur + 0.25).
Proof.
  intros H0 H1. unfold newDeliveryTime.
  destruct (min_spec 20 (cur + (r - 0.5) * 0.5)) as [[Hm ->] | [Hm ->]];
    [destruct (max_spec 8 20) as [[Hx ->] | [Hx ->]]
    | destruct (max_spec 8 (cur + (r - 0.5) * 0.5)) as [[Hx ->] | [Hx ->]]];
    repeat split; intros; lra.
Qed.

(** What [#success-rate] shows after a step. *)
Lemma shown_success_rate (cur r : Q) :
  0 <= r -> r < 1 ->
  let shown := JS.toFixed1 (newSuccessRate cur r) in
  (90 <= shown /\ shown <= 100) /\
  (90 <= cur -> cur <= 100 -> one_decimal cur ->
     cur - 0.05 <= shown /\ shown <= cur + 0.05).
Proof.
  intros H0 H1 shown.
  destruct (newSuccessRate_bounds cur r H0 H1) as ((Hlo & Hhi) & Hstep).
  split.
  - pose proof (toFixed1_between (newSuccessRate cur r) 900 1000) as H.
    fold shown in H. change (inject_Z 900) with 900 in H.
    change (inject_Z 1000) with 1000 in H.
    destruct H as [Ha Hb]; qlra.
  - intros Hc0 Hc1 Hone. destruct (Hstep Hc0 Hc1) as [Hs0 Hs1].
    pose proof (toFixed1_near (newSuccessRate cur r) cur 0) as H.
    fold shown in H. change (inject_Z 0) with 0 in H.
    destruct H as [Ha Hb]; try done; qlra.
Qed.

(** What [#avg-delivery] shows after a step. *)
Lemma shown_delivery_time (cur r : Q) :
  0 <= r -> r < 1 ->
  let shown := JS.toFixed1 (newDeliveryTime cur r) in
  (8 <= shown /\ shown <= 20) /\
  (8 <= cur -> cur <= 20 -> one_decimal cur ->
     cur - 0.25 <= shown /\ shown <= cur + 0.25).
Proof.
  intros H0 H1 shown.
  destruct (newDeliveryTime_bounds cur r H0 H1) as ((Hlo & Hhi) & Hstep).
  split.
  - pose proof (toFixed1_between (newDeliveryTime cur r) 80 200) as H.
    fold shown in H. change (inject_Z 80) with 80 in H.
    change (inject_Z 200) with 200 in H.
    destruct H as [Ha Hb]; qlra.
  - intros Hc0 Hc1 Hone. destruct (Hstep Hc0 Hc1) as [Hs0 Hs1].
    pose proof (toFixed1_near (newDeliveryTime cur r) cur 2) as H.
    fold shown in H. change (inject_Z 2) with 2 in H.
    destruct H as [Ha Hb]; try done; qlra.
Qed.




Lemma simulateBattery_frame (d : Drone) (s : State) :
  dom (simulateBattery d s).2 = dom s.
Proof. unfold simulateBattery, Math_random. by repeat case_match. Qed.

Lemma simulateFleet_frame (ds : list Drone) (s : State) :
  dom (simulateFleet ds s).2 = dom s.
Proof.
  revert s. induction ds as [| d0 ds IH]; intros s; [done |].
  simpl. pose proof (simulateBattery_frame d0 s) as H0.
  destruct (simulateBattery d0 s) as [d0' s0].
  specialize (IH s0). destruct (simulateFleet ds s0) as [ds' s1].
  simpl in *. congruence.
Qed.

Lemma Math_random_frame (s : State) :
  appData (Math_random s).2 = appData s /\ dom (Math_random s).2 = dom s.
Proof. done. Qed.

(** One call of [Math.random()] in a proof about a state [s]. *)
Ltac draw s Hs r s' Hr' Hs' Ha Hd :=
  destruct (Math_random_range s Hs) as (Hr' & Hs');
  destruct (Math_random_frame s) as (Ha & Hd);
  destruct (Math_random s) as [r s']; cbn [fst snd] in *.

(** The loop over the fleet in a proof about [updateDashboardDataLocal]. *)
Ltac fleet_loop s Hx fleet s3 E3 Hdom :=
  match goal with |- context [simulateFleet ?l ?x] =>
    pose proof (simulateFleet_frame l x) as Hdom;
    assert (Hx : random_in_range x) by assumption;
    let Hl := fresh in
    assert (Hl : l = drone_fleet (appData s)) by (cbn; congruence);
    rewrite Hl in *; clear Hl;
    destruct (simulateFleet (drone_fleet (appData s)) x) as [fleet s3] eqn:E3
  end;
  cbn [fst snd] in Hdom;
  change (dom (set_drone_fleet fleet s3)) with (dom s3); rewrite Hdom.

(** [updateDashboardDataLocal], field by field. *)
Lemma updateDashboardDataLocal_effect (s : State) :
  random_in_range s ->
  let s' := updateDashboardDataLocal s in
  (forall cur, success_rate_el (data_view (dom s)) = Some cur ->
     exists r, (0 <= r /\ r < 1) /\
       success_rate_el (data_view (dom s')) = Some (JS.toFixed1 (newSuccessRate cur r))) /\
  (forall cur, avg_delivery_el (data_view (dom s)) = Some cur ->
     exists r, (0 <= r /\ r < 1) /\
       avg_delivery_el (data_view (dom s')) = Some (JS.toFixed1 (newDeliveryTime cur r))) /\
  (exists s0, random_in_range s0 /\
     drone_fleet (appData s') = (simulateFleet (drone_fleet (appData s)) s0).1).
Proof.
  intros Hr s'. subst s'. unfold updateDashboardDataLocal.
  destruct (success_rate_el (data_view (dom s))) as [rate |] eqn:Erate;
    destruct (avg_delivery_el (data_view (dom s))) as [time |] eqn:Etime.
  - draw s Hr r1 s1 Hr1 Hs1 Ha1 Hd1. draw s1 Hs1 r2 s2 Hr2 Hs2 Ha2 Hd2.
    fleet_loop s Hx fleet s3 E3 Hdom.
    split; [| split].
    + intros cur [= <-]. by exists r1.
    + intros cur [= <-]. by exists r2.
    + eexists. split; [exact Hx |]. by rewrite E3.
  - draw s Hr r1 s1 Hr1 Hs1 Ha1 Hd1.
    fleet_loop s Hx fleet s3 E3 Hdom.
    split; [| split].
    + intros cur [= <-]. by exists r1.
    + intros cur [=].
    + eexists. split; [exact Hx |]. by rewrite E3.
  - draw s Hr r2 s2 Hr2 Hs2 Ha2 Hd2.
    fleet_loop s Hx fleet s3 E3 Hdom.
    split; [| split].
    + intros cur [=].
    + intros cur [= <-]. by exists r2.
    + eexists. split; [exact Hx |]. by rewrite E3.
  - fleet_loop s Hx fleet s3 E3 Hdom.
    split; [| split].
    + intros cur [=].
    + intros cur [=].
    + eexists. split; [exact Hx |]. by rewrite E3.
Qed.



(** * Further properties *)

(** ** The cache *)

(** X1: what a fetch has stored is what the next, failing fetch returns:
    for each of the three fetchers, data fetched from a backend that
    answers comes back unchanged from a backend that does not. *)
Theorem fetch_then_fail_returns_fetched (up down : Network) (s : State)
    (kpi : KPI) (fleet : list Drone) (supplies : list SupplyItem) :
  up GetKpis = Resolved kpi -> down GetKpis = NetworkError ->
  up GetFleetStatus = Resolved fleet -> down GetFleetStatus = NetworkError ->
  up GetMedicalInventory = Resolved supplies -> down GetMedicalInventory = NetworkError ->
  (run down (fetchKPIs (run up (fetchKPIs s)).2)).1 = kpi /\
  (run down (fetchFleetStatus (run up (fetchFleetStatus s)).2)).1 = fleet /\
  (run down (fetchMedicalSupplies (run up (fetchMedicalSupplies s)).2)).1 = supplies.
Proof.
  intros Hk Hk' Hf Hf' Hm Hm'. simpl.
  rewrite Hk, Hk', Hf, Hf', Hm, Hm'. done.
Qed.

Lemma fetch_then_fail_returns_fetched_witness :
  (run offline (fetchKPIs (run backend (fetchKPIs state0)).2)).1 = mkKPI 12 5 96.2 11.8 /\
  (run offline (fetchFleetStatus (run backend (fetchFleetStatus state0)).2)).1 = sampleFleet /\
  (run offline (fetchMedicalSupplies (run backend (fetchMedicalSupplies state0)).2)).1
    = sampleSupplies.
Proof.
  exact (fetch_then_fail_returns_fetched backend offline state0 _ _ _
           eq_refl eq_refl eq_refl eq_refl eq_refl eq_refl).
Defined.

(** X2: a fetcher writes its own field of the cache and nothing else but
    the console: the session, the registries, the page, the timers, the
    charts and the two other fields of the cache are as before, whatever
    the backend answers. *)
Theorem fetchers_keep_to_their_field (net : Network) (s : State) :
  let k := (run net (fetchKPIs s)).2 in
  let f := (run net (fetchFleetStatus s)).2 in
  let m := (run net (fetchMedicalSupplies s)).2 in
  (same_but_cache_and_console s k /\
   drone_fleet (appData k) = drone_fleet (appData s) /\
   medical_supplies (appData k) = medical_supplies (appData s)) /\
  (same_but_cache_and_console s f /\
   kpi_data (appData f) = kpi_data (appData s) /\
   medical_supplies (appData f) = medical_supplies (appData s)) /\
  (same_but_cache_and_console s m /\
   kpi_data (appData m) = kpi_data (appData s) /\
   drone_fleet (appData m) = drone_fleet (appData s)).
Proof.
  simpl.
  destruct (net GetKpis), (net GetFleetStatus), (net GetMedicalInventory); done.
Qed.

(** ** Login *)


Lemma enterMainApp_view (net : Network) (s : State) (usr : User.t) (a b : bool) :
  currentUser s = Some usr ->
  login_screen (login_view (dom s)) = Some a ->
  main_app (login_view (dom s)) = Some b ->
  let s' := (run net (enterMainApp s)).2 in
  currentUser s' = Some usr /\
  login_view (dom s') =
    {| username_field := (fun _ => "") <$> username_field (login_view (dom s));
       password_field := (fun _ => "") <$> password_field (login_view (dom s));
       login_error := (fun e => mkErrorDiv (error_text e) true) <$> login_error (login_view (dom s));
       login_screen := Some true; main_app := Some false;
       user_name_el := (fun _ => User.full_name usr) <$> user_name_el (login_view (dom s));
       user_role_el := (fun _ => User.role usr) <$> user_role_el (login_view (dom s)) |} /\
  timeouts (browser s') = (timeouts (browser s) ++ [(100%Z, InitializeMainApp)])%list.
Proof.
  intros Hu Ha Hb. unfold enterMainApp. simpl. rewrite Ha, Hb, Hu. done.
Qed.

(** X4: a login that goes through, by the backend or by the table, on a
    page that has both screens: the session is the authenticated user, the
    login screen is hidden and the main view shown, the header shows the
    user's display name and role, both fields are emptied, the error
    element is hidden, and [initializeMainApp] is scheduled 100 ms
    later. *)
Theorem login_switches_view (net : Network) (s : State) (u p : string)
    (a b : bool) (usr : User.t) :
  username_field (login_view (dom s)) = Some u ->
  password_field (login_view (dom s)) = Some p ->
  all_whitespace u = false -> all_whitespace p = false ->
  login_screen (login_view (dom s)) = Some a ->
  main_app (login_view (dom s)) = Some b ->
  authenticates net (trim u) (trim p) usr ->
  let s' := (run net (handleLogin s)).2 in
  currentUser s' = Some usr /\
  login_view (dom s') =
    {| username_field := Some ""; password_field := Some "";
       login_error := (fun e => mkErrorDiv (error_text e) true) <$> login_error (login_view (dom s));
       login_screen := Some true; main_app := Some false;
       user_name_el := (fun _ => User.full_name usr) <$> user_name_el (login_view (dom s));
       user_role_el := (fun _ => User.role usr) <$> user_role_el (login_view (dom s)) |} /\
  timeouts (browser s') = (timeouts (browser s) ++ [(100%Z, InitializeMainApp)])%list.
Proof.
  intros Hu Hp Hu' Hp' Ha Hb Hauth s'. subst s'.
  rewrite (handleLogin_await s u p Hu Hp Hu' Hp'). simpl.
  assert (Hlocal : forall s0 user,
    dom s0 = dom s -> timeouts (browser s0) = timeouts (browser s) ->
    demo_users !! trim u = Some user -> DemoUser.password user = trim p ->
    usr = session_of (trim u) user ->
    let s' := (run net (localAuth (trim u) (trim p) s0)).2 in
    currentUser s' = Some usr /\
    login_view (dom s') =
      {| username_field := Some ""; password_field := Some "";
         login_error := (fun e => mkErrorDiv (error_text e) true) <$> login_error (login_view (dom s));
         login_screen := Some true; main_app := Some false;
         user_name_el := (fun _ => User.full_name usr) <$> user_name_el (login_view (dom s));
         user_role_el := (fun _ => User.role usr) <$> user_role_el (login_view (dom s)) |} /\
    timeouts (browser s') = (timeouts (browser s) ++ [(100%Z, InitializeMainApp)])%list).
  { intros s0 user Hd Ht Huser Hpw ->. unfold localAuth.
    rewrite <- Hpw, Huser, String.eqb_refl.
    set (s1 := set_currentUser _ _).
    assert (Ha1 : login_screen (login_view (dom s1)) = Some a) by (simpl; by rewrite Hd).
    assert (Hb1 : main_app (login_view (dom s1)) = Some b) by (simpl; by rewrite Hd).
    destruct (enterMainApp_view net s1 (session_of (trim u) user) a b eq_refl Ha1 Hb1)
      as (H1 & H2 & H3).
    rewrite H1, H2, H3. simpl. rewrite Hd, Ht, Hu, Hp. done. }
  destruct Hauth as [(response & Hnet & Hok & ->) | (Hfail & user & Huser & Hpw & Husr)].
  - rewrite Hnet. simpl. rewrite Hok.
    destruct (enterMainApp_view net (set_currentUser (Some (login_user response)) s)
                (login_user response) a b eq_refl Ha Hb) as (H1 & H2 & H3).
    rewrite H1, H2, H3. simpl. rewrite Hu, Hp. done.
  - destruct Hfail as [Hnet | (response & Hnet & Hno)]; rewrite Hnet; simpl.
    + by apply (Hlocal _ user).
    + rewrite Hno. by apply (Hlocal _ user).
Qed.

Lemma login_switches_view_witness :
  let s := typeCredentials " medical" "medical123 " state0 in
  let s' := (run offline (handleLogin s)).2 in
  login_screen (login_view (dom s')) = Some true /\
  main_app (login_view (dom s')) = Some false /\
  user_name_el (login_view (dom s')) = Some "Medical Supply Coordinator" /\
  user_role_el (login_view (dom s')) = Some "Medical Coordinator" /\
  timeouts (browser s') = [(100%Z, InitializeMainApp)].
Proof.
  intros s s'.
  destruct (login_switches_view offline s " medical" "medical123 " false true
              (User.mk "medical" (Some "medical123") "Medical Coordinator"
                       "Medical Supply Coordinator")
              eq_refl eq_refl eq_refl eq_refl eq_refl eq_refl) as (_ & Hview & Htm).
  - right. split; [by left |].
    exists (DemoUser.mk "medical123" "Medical Coordinator" "Medical Supply Coordinator").
    repeat split.
  - fold s' in Hview, Htm. rewrite Hview, Htm. repeat split.
Defined.



(** ** Logout *)

Lemma clearIntervals_fold_rest (l : list (string * nat)) (s : State) :
  same_page_and_timeouts s
    (foldr (fun kv s => if bool_decide (kv.2 = 0%nat) then s else clearInterval kv.2 s) s l).
Proof.
  induction l as [| [name h] l IH]; simpl; [done |].
  by case_bool_decide.
Qed.

Lemma destroyCharts_fold_rest (l : list (string * nat)) (s : State) :
  let s' := foldr (fun kv s => destroyChart kv.2 s) s l in
  same_page_and_timeouts s s' /\
  (forall h, live_charts (browser s) !! h = None -> live_charts (browser s') !! h = None).
Proof.
  induction l as [| [name h0] l IH]; simpl; [done |].
  destruct IH as (Hsame & Hnone). split; [exact Hsame |].
  intros h Hh. destruct (decide (h = h0)) as [-> | Hne].
  - apply lookup_delete_eq.
  - rewrite lookup_delete_ne by done. by apply Hnone.
Qed.

(** The state [handleLogout] reaches after its two loops. *)
Lemma handleLogout_loops (s : State) :
  same_page_and_timeouts s
    (set_charts ∅ (destroyAllCharts
       (set_updateIntervals ∅ (clearAllIntervals (set_currentUser None s))))).
Proof.
  destruct (clearIntervals_fold_rest
              (map_to_list (updateIntervals (set_currentUser None s)))
              (set_currentUser None s)) as (C1 & C2 & C3 & C4 & C5).
  fold (clearAllIntervals (set_currentUser None s)) in C1, C2, C3, C4, C5.
  set (s2 := set_updateIntervals ∅ (clearAllIntervals (set_currentUser None s))).
  destruct (destroyCharts_fold_rest (map_to_list (charts s2)) s2)
    as ((D1 & D2 & D3 & D4 & D5) & _).
  fold (destroyAllCharts s2) in D1, D2, D3, D4, D5.
  unfold same_page_and_timeouts. simpl.
  rewrite D1, D2, D3, D4, D5. unfold s2. simpl.
  rewrite C1, C2, C3, C4, C5. done.
Qed.

(** X6: logging out, on a page that has both screens, brings the view
    back to the login state: the main view is hidden and the login screen
    shown, both fields are emptied and the error element is hidden, the
    dashboard is the active page if the page has one, and what is
    scheduled is the initialisation of the dashboard page after 50 ms and,
    if the form has a username field, the focus on it after 100 ms. *)
Theorem logout_returns_to_login_view (s : State) (a b : bool) :
  login_screen (login_view (dom s)) = Some a ->
  main_app (login_view (dom s)) = Some b ->
  let s' := handleLogout s in
  login_view (dom s') =
    {| username_field := (fun _ => "") <$> username_field (login_view (dom s));
       password_field := (fun _ => "") <$> password_field (login_view (dom s));
       login_error := (fun e => mkErrorDiv (error_text e) true) <$> login_error (login_view (dom s));
       login_screen := Some false; main_app := Some true;
       user_name_el := user_name_el (login_view (dom s));
       user_role_el := user_role_el (login_view (dom s)) |} /\
  active_pages (nav_view (dom s')) =
    (if bool_decide ("dashboard" ∈ pages (nav_view (dom s))) then ["dashboard"] else []) /\
  timeouts (browser s') =
    (timeouts (browser s) ++ (50%Z, InitializePage "dashboard") ::
       match username_field (login_view (dom s)) with
       | Some _ => [(100%Z, FocusUsername)]
       | None => []
       end)%list.
Proof.
  intros Ha Hb s'. subst s'. unfold handleLogout.
  destruct (handleLogout_loops s) as (Hd & Ht & _).
  set (s3 := set_charts ∅ _) in *. clearbody s3.
  cbv zeta. rewrite Hd, Ha, Hb. unfold showPage. cbv zeta.
  cbn [dom nav_view console_log set_browser set_login_view set_dom clearLoginForm login_view].
  rewrite ?Hd.
  destruct (bool_decide ("dashboard" ∈ pages (nav_view (dom s))));
    destruct (bool_decide ("dashboard" ∈ nav_items (nav_view (dom s))));
    destruct (username_field (login_view (dom s))) as [u |]; simpl;
    rewrite ?Hd, ?Ht, <- ?app_assoc; done.
Qed.

Lemma logout_returns_to_login_view_witness :
  login_screen (login_view (dom (handleLogout sessionState))) = Some false /\
  main_app (login_view (dom (handleLogout sessionState))) = Some true /\
  active_pages (nav_view (dom (handleLogout sessionState))) = ["dashboard"].
Proof.
  destruct (logout_returns_to_login_view sessionState true false) as (Hv & Hp & _).
  - vm_compute. reflexivity.
  - vm_compute. reflexivity.
  - rewrite Hv, Hp. repeat split.
Defined.

(** ** Navigation *)


(** X8: [initializeMainApp] takes effect once per page load: after a call
    the flag is set and any further call changes nothing, also after a
    logout, which leaves the flag set; the first call installs one click
    listener per navigation item and action button, later calls none. *)
Theorem main_app_initialized_once (s : State) :
  let s1 := initializeMainApp s in
  isInitialized s1 = true /\
  initializeMainApp s1 = s1 /\
  initializeMainApp (handleLogout s1) = handleLogout s1 /\
  click_listeners (nav_view (dom s1)) =
    (if isInitialized s then click_listeners (nav_view (dom s))
     else click_listeners (nav_view (dom s))
          + length (nav_items (nav_view (dom s))) + action_btns (nav_view (dom s)))%nat.
Proof.
  intros s1.
  assert (H1 : isInitialized s1 = true).
  { unfold s1, initializeMainApp. destruct (isInitialized s) eqn:E; done. }
  split; [exact H1 |].
  split; [unfold initializeMainApp at 1; by rewrite H1 |].
  split.
  - destruct (handleLogout_effect s1) as (_ & _ & _ & _ & Hi & _).
    unfold initializeMainApp at 1. by rewrite Hi, H1.
  - unfold s1, initializeMainApp. destruct (isInitialized s); [done |].
    unfold showPage. cbv zeta.
    destruct (bool_decide ("dashboard" ∈ pages (nav_view (dom _))));
      destruct (bool_decide ("dashboard" ∈ nav_items (nav_view (dom _)))); done.
Qed.

(** ** Timers and charts do not pile up *)

Lemma size_replace {A : Type} (m : gmap nat A) (old new : nat) (x y : A) :
  m !! old = Some x -> m !! new = None ->
  size (<[new := y]> (delete old m)) = size m.
Proof.
  intros Hold Hnew.
  assert (Hne : old <> new) by congruence.
  rewrite map_size_insert_None by (by rewrite lookup_delete_ne).
  rewrite map_size_delete_Some by (by eexists).
  assert (size m <> 0%nat); [| lia].
  intros Hz%map_size_empty_inv. subst m. by rewrite lookup_empty in Hold.
Qed.

Lemma initializeTracking_effect (s : State) :
  timers_ok s ->
  let s' := initializeTracking s in
  let h := next_timer (browser s) in
  updateIntervals s' !! "tracking" = Some h /\
  intervals (browser s') !! h = Some (3000%Z, UpdateFlightProgress) /\
  (forall h0, updateIntervals s !! "tracking" = Some h0 -> h0 <> 0%nat ->
     intervals (browser s') !! h0 = None) /\
  (forall h', h' <> h -> updateIntervals s !! "tracking" <> Some h' ->
     intervals (browser s') !! h' = intervals (browser s) !! h') /\
  (forall name, name <> "tracking" -> updateIntervals s' !! name = updateIntervals s !! name) /\
  (forall h0 x, updateIntervals s !! "tracking" = Some h0 -> h0 <> 0%nat ->
     intervals (browser s) !! h0 = Some x ->
     size (intervals (browser s')) = size (intervals (browser s))) /\
  timers_ok s'.
Proof.
  intros (Hfresh & Hreg) s' h. subst s' h. unfold initializeTracking, timers_ok.
  destruct (updateIntervals s !! "tracking") as [h0 |] eqn:E.
  - pose proof (Hreg _ _ E) as Hlt.
    case_bool_decide as Hz; simpl.
    + subst h0. split; [by rewrite lookup_insert_eq |].
      split; [by rewrite lookup_insert_eq |].
      split; [intros ? [= <-]; done |].
      split; [intros h' Hne _; by rewrite lookup_insert_ne |].
      split; [intros name Hne; by rewrite lookup_insert_ne |].
      split; [intros ? ? [= <-]; done |].
      split.
      * intros h Hh. rewrite lookup_insert_ne by lia. apply Hfresh. lia.
      * intros name h [[_ <-] | [_ Hn]]%lookup_insert_Some; [lia |].
        apply Hreg in Hn. lia.
    + split; [by rewrite lookup_insert_eq |].
      split; [by rewrite lookup_insert_eq |].
      split.
      { intros ? [= <-] _. rewrite lookup_insert_ne by lia. apply lookup_delete_eq. }
      split.
      { intros h' Hne Hne'. rewrite lookup_insert_ne by done.
        rewrite lookup_delete_ne; [done | congruence]. }
      split; [intros name Hne; by rewrite lookup_insert_ne |].
      split.
      { intros ? x [= <-] _ Hx. apply (size_replace _ h0 _ x); [done |]. by apply Hfresh. }
      split.
      * intros h Hh. rewrite lookup_insert_ne by lia.
        destruct (decide (h = h0)) as [-> | Hne]; [apply lookup_delete_eq |].
        rewrite lookup_delete_ne by done. apply Hfresh. lia.
      * intros name h [[_ <-] | [_ Hn]]%lookup_insert_Some; [lia |].
        apply Hreg in Hn. lia.
  - simpl. split; [by rewrite lookup_insert_eq |].
    split; [by rewrite lookup_insert_eq |].
    split; [done |].
    split; [intros h' Hne _; by rewrite lookup_insert_ne |].
    split; [intros name Hne; by rewrite lookup_insert_ne |].
    split; [done |].
    split.
    + intros h Hh. rewrite lookup_insert_ne by lia. apply Hfresh. lia.
    + intros name h [[_ <-] | [_ Hn]]%lookup_insert_Some; [lia |].
      apply Hreg in Hn. lia.
Qed.

(** X9: opening the tracking page again replaces its timer rather than
    adding one: the new timer runs [updateFlightProgress] every 3 s under
    a handle of its own, the timer registered before is cancelled, every
    other timer and registry entry is left alone, and if the old timer
    was still running the number of running timers is unchanged. *)
Theorem tracking_timer_is_replaced (s : State) :
  timers_ok s ->
  let s' := initializeTracking s in
  let h := next_timer (browser s) in
  updateIntervals s' !! "tracking" = Some h /\
  intervals (browser s') !! h = Some (3000%Z, UpdateFlightProgress) /\
  (forall h0, updateIntervals s !! "tracking" = Some h0 -> h0 <> 0%nat ->
     intervals (browser s') !! h0 = None) /\
  (forall h', h' <> h -> updateIntervals s !! "tracking" <> Some h' ->
     intervals (browser s') !! h' = intervals (browser s) !! h') /\
  (forall name, name <> "tracking" -> updateIntervals s' !! name = updateIntervals s !! name) /\
  (forall h0 x, updateIntervals s !! "tracking" = Some h0 -> h0 <> 0%nat ->
     intervals (browser s) !! h0 = Some x ->
     size (intervals (browser s')) = size (intervals (browser s))) /\
  timers_ok s'.
Proof. exact (initializeTracking_effect s). Qed.

(** ** Handles stay tracked *)

Lemma handles_untouched_refl (s : State) : handles_untouched s s.
Proof. by repeat split. Qed.

Lemma handles_untouched_trans (s1 s2 s3 : State) :
  handles_untouched s1 s2 -> handles_untouched s2 s3 -> handles_untouched s1 s3.
Proof.
  intros (A1 & A2 & A3 & A4 & A5 & A6) (B1 & B2 & B3 & B4 & B5 & B6).
  repeat split; try congruence. lia.
Qed.

(** Closes a goal [handles_untouched s s'] where [s'] is [s] under field
    updates that stay clear of the registries. *)
Ltac untouched :=
  repeat case_match; simpl; unfold handles_untouched; simpl;
  repeat split; try done; lia.

Lemma showLoginError_untouched (message : string) (s : State) :
  handles_untouched s (showLoginError message s).
Proof. unfold showLoginError. untouched. Qed.

Lemma showPage_untouched (pageId : string) (s : State) :
  handles_untouched s (showPage pageId s).
Proof. unfold showPage. cbv zeta. untouched. Qed.

Lemma enterMainApp_untouched (net : Network) (s : State) :
  handles_untouched s (run net (enterMainApp s)).2.
Proof. unfold enterMainApp, showLoginError. simpl. untouched. Qed.

Lemma localAuth_untouched (net : Network) (username password : string) (s : State) :
  handles_untouched s (run net (localAuth username password s)).2.
Proof.
  unfold localAuth.
  set (s0 := console_log "API auth failed, trying local auth:" s).
  assert (H0 : handles_untouched s s0) by (by repeat split).
  assert (Hrej : handles_untouched s
    (run net (Done false (clearLoginForm (showLoginError "Invalid username or password." s0)))).2).
  { eapply handles_untouched_trans; [exact H0 |].
    eapply handles_untouched_trans; [apply showLoginError_untouched |]. by repeat split. }
  repeat case_match; try exact Hrej.
  eapply handles_untouched_trans; [| apply enterMainApp_untouched]. by repeat split.
Qed.

Lemma handleLogin_untouched (net : Network) (s : State) :
  handles_untouched s (run net (handleLogin s)).2.
Proof.
  unfold handleLogin.
  repeat case_match; simpl; try apply showLoginError_untouched.
  destruct (net _) as [| response]; simpl.
  - eapply handles_untouched_trans; [| apply localAuth_untouched]. by repeat split.
  - destruct (login_success response).
    + eapply handles_untouched_trans; [| apply enterMainApp_untouched]. by repeat split.
    + apply localAuth_untouched.
Qed.

Lemma initializeMainApp_untouched (s : State) :
  handles_untouched s (initializeMainApp s).
Proof.
  unfold initializeMainApp. destruct (isInitialized s); [apply handles_untouched_refl |].
  cbv zeta. pose proof (showPage_untouched "dashboard" s) as H.
  set (s1 := showPage "dashboard" s) in *. clearbody s1.
  eapply handles_untouched_trans; [exact H |].
  assert (Hlog : forall (l : list string) s0, handles_untouched s0
    (foldl (fun s _ => console_log "Setting up listener for:" s) s0 l)).
  { induction l as [| x l IH]; intros s0; simpl; [apply handles_untouched_refl |].
    eapply handles_untouched_trans; [| apply IH]. by repeat split. }
  specialize (Hlog (nav_items (nav_view (dom s1))) (console_log "Found nav items:" s1)).
  destruct Hlog as (L1 & L2 & L3 & L4 & L5 & L6).
  unfold handles_untouched. simpl in *. by rewrite L1, L2, L3, L4, L5.
Qed.

Lemma fetchers_untouched (net : Network) (s : State) :
  handles_untouched s (run net (fetchKPIs s)).2 /\
  handles_untouched s (run net (fetchFleetStatus s)).2 /\
  handles_untouched s (run net (fetchMedicalSupplies s)).2 /\
  handles_untouched s (run net (initializeFleetManagement s)).2.
Proof.
  unfold initializeFleetManagement.
  destruct (fleet_grid (data_view (dom s))); simpl;
    destruct (net GetKpis), (net GetFleetStatus), (net GetMedicalInventory);
    simpl; unfold handles_untouched; simpl; repeat split; try done; lia.
Qed.

Lemma updateFlight_same (f : FlightItem) (s : State) :
  same_but_random s (updateFlight f s).2.
Proof. unfold updateFlight, Math_random. case_match; by repeat split. Qed.

Lemma same_but_random_trans (s1 s2 s3 : State) :
  same_but_random s1 s2 -> same_but_random s2 s3 -> same_but_random s1 s3.
Proof. unfold same_but_random. intuition congruence. Qed.

Lemma updateFlights_same (fs : list FlightItem) (s : State) :
  same_but_random s (updateFlights fs s).2.
Proof.
  revert s. induction fs as [| f fs IH]; intros s; [by repeat split |].
  simpl. pose proof (updateFlight_same f s) as H0.
  destruct (updateFlight f s) as [f' s0]. specialize (IH s0).
  destruct (updateFlights fs s0) as [fs' s1]. simpl in *.
  by eapply same_but_random_trans.
Qed.

Lemma simulateBattery_same (d : Drone) (s : State) :
  same_but_random s (simulateBattery d s).2.
Proof. unfold simulateBattery, Math_random. repeat case_match; by repeat split. Qed.

Lemma simulateFleet_same (ds : list Drone) (s : State) :
  same_but_random s (simulateFleet ds s).2.
Proof.
  revert s. induction ds as [| d ds IH]; intros s; [by repeat split |].
  simpl. pose proof (simulateBattery_same d s) as H0.
  destruct (simulateBattery d s) as [d' s0]. specialize (IH s0).
  destruct (simulateFleet ds s0) as [ds' s1]. simpl in *.
  by eapply same_but_random_trans.
Qed.

Lemma updateFlightProgress_same (s : State) :
  let s' := updateFlightProgress s in
  currentUser s' = currentUser s /\ charts s' = charts s /\
  updateIntervals s' = updateIntervals s /\ isInitialized s' = isInitialized s /\
  appData s' = appData s /\
  login_view (dom s') = login_view (dom s) /\ nav_view (dom s') = nav_view (dom s) /\
  success_rate_el (data_view (dom s')) = success_rate_el (data_view (dom s)) /\
  avg_delivery_el (data_view (dom s')) = avg_delivery_el (data_view (dom s)) /\
  fleet_grid (data_view (dom s')) = fleet_grid (data_view (dom s)) /\
  intervals (browser s') = intervals (browser s) /\
  timeouts (browser s') = timeouts (browser s) /\
  next_timer (browser s') = next_timer (browser s) /\
  live_charts (browser s') = live_charts (browser s) /\
  next_chart (browser s') = next_chart (browser s) /\
  console (browser s') = console (browser s).
Proof.
  unfold updateFlightProgress.
  pose proof (updateFlights_same (flights (data_view (dom s))) s) as H.
  destruct (updateFlights (flights (data_view (dom s))) s) as [fs s0].
  destruct H as (H1 & H2 & H3 & H4 & H5 & H6 & H7 & H8 & H9 & H10 & H11 & H12).
  simpl in *. rewrite H6. done.
Qed.

Lemma updateDashboardDataLocal_same (s : State) :
  let s' := updateDashboardDataLocal s in
  currentUser s' = currentUser s /\ charts s' = charts s /\
  updateIntervals s' = updateIntervals s /\ isInitialized s' = isInitialized s /\
  kpi_data (appData s') = kpi_data (appData s) /\
  medical_supplies (appData s') = medical_supplies (appData s) /\
  login_view (dom s') = login_view (dom s) /\ nav_view (dom s') = nav_view (dom s) /\
  fleet_grid (data_view (dom s')) = fleet_grid (data_view (dom s)) /\
  flights (data_view (dom s')) = flights (data_view (dom s)) /\
  intervals (browser s') = intervals (browser s) /\
  timeouts (browser s') = timeouts (browser s) /\
  next_timer (browser s') = next_timer (browser s) /\
  live_charts (browser s') = live_charts (browser s) /\
  next_chart (browser s') = next_chart (browser s) /\
  console (browser s') = console (browser s).
Proof.
  unfold updateDashboardDataLocal, Math_random.
  destruct (success_rate_el (data_view (dom s)));
    destruct (avg_delivery_el (data_view (dom s))); cbv zeta;
    match goal with |- context [simulateFleet ?l ?x] =>
      pose proof (simulateFleet_same l x) as H;
      destruct (simulateFleet l x) as [fleet s0]
    end;
    destruct H as (H1 & H2 & H3 & H4 & H5 & H6 & H7 & H8 & H9 & H10 & H11 & H12);
    simpl in *; rewrite H5, H6; done.
Qed.

Lemma ticks_untouched (s : State) :
  handles_untouched s (updateFlightProgress s) /\
  handles_untouched s (updateDashboardDataLocal s).
Proof.
  pose proof (updateFlightProgress_same s) as F.
  pose proof (updateDashboardDataLocal_same s) as D.
  cbv zeta in F, D. unfold handles_untouched.
  repeat split; try tauto; [replace (next_timer (browser (updateFlightProgress s)))
    with (next_timer (browser s)) by (symmetry; tauto)
  | replace (next_timer (browser (updateDashboardDataLocal s)))
      with (next_timer (browser s)) by (symmetry; tauto)]; lia.
Qed.

Lemma replaceChart_effect (canvas : bool) (key type : string) (s : State) :
  charts_ok s -> chart_replaced canvas key type s (replaceChart canvas key type s).
Proof.
  intros (Hfresh & Hreg). unfold chart_replaced, replaceChart, charts_ok.
  destruct canvas; [| done].
  destruct (charts s !! key) as [h0 |] eqn:E; simpl.
  - pose proof (Hreg _ _ E) as Hlt.
    split; [by rewrite lookup_insert_eq |].
    split; [by rewrite lookup_insert_eq |].
    split.
    { intros ? [= <-]. rewrite lookup_insert_ne by lia. apply lookup_delete_eq. }
    split.
    { intros h' Hne Hne'. rewrite lookup_insert_ne by done.
      rewrite lookup_delete_ne; [done | congruence]. }
    split; [intros name Hne; by rewrite lookup_insert_ne |].
    split.
    { intros ? t [= <-] Ht. apply (size_replace _ h0 _ t); [done |]. by apply Hfresh. }
    split.
    + intros h Hh. rewrite lookup_insert_ne by lia.
      destruct (decide (h = h0)) as [-> | Hne]; [apply lookup_delete_eq |].
      rewrite lookup_delete_ne by done. apply Hfresh. lia.
    + intros name h [[_ <-] | [_ Hn]]%lookup_insert_Some; [lia |].
      apply Hreg in Hn. lia.
  - split; [by rewrite lookup_insert_eq |].
    split; [by rewrite lookup_insert_eq |].
    split; [done |].
    split; [intros h' Hne _; by rewrite lookup_insert_ne |].
    split; [intros name Hne; by rewrite lookup_insert_ne |].
    split; [done |].
    split.
    + intros h Hh. rewrite lookup_insert_ne by lia. apply Hfresh. lia.
    + intros name h [[_ <-] | [_ Hn]]%lookup_insert_Some; [lia |].
      apply Hreg in Hn. lia.
Qed.

Lemma replaceChart_timers (canvas : bool) (key type : string) (s : State) :
  let s' := replaceChart canvas key type s in
  updateIntervals s' = updateIntervals s /\
  intervals (browser s') = intervals (browser s) /\
  next_timer (browser s') = next_timer (browser s).
Proof.
  unfold replaceChart, newChart. destruct canvas; [| done].
  by destruct (charts s !! key).
Qed.

Lemma initializeComponentHealthChart_replaceChart (s : State) :
  initializeComponentHealthChart s =
  replaceChart (component_health_canvas (data_view (dom s))) "componentHealth" "bar" s.
Proof. reflexivity. Qed.

Lemma handles_tracked_untouched (s s' : State) :
  handles_tracked s -> handles_untouched s s' -> handles_tracked s'.
Proof.
  intros ((Tf & Tr) & (Cf & Cr) & Hlabel & Hge & Htr & Hch) (U1 & U2 & U3 & U4 & U5 & U6).
  unfold handles_tracked, timers_ok, charts_ok. rewrite U1, U2, U3, U4, U5.
  split; [split |]; [| | done].
  - intros h Hh. apply Tf. lia.
  - intros name h Hn. apply Tr in Hn. lia.
Qed.

Lemma handles_tracked_replaceChart (canvas : bool) (key type : string) (s : State) :
  handles_tracked s -> handles_tracked (replaceChart canvas key type s).
Proof.
  intros ((Tf & Tr) & Hc & Hlabel & Hge & Htr & Hch).
  pose proof (replaceChart_effect canvas key type s Hc) as He.
  destruct (replaceChart_timers canvas key type s) as (T1 & T2 & T3).
  unfold chart_replaced in He. destruct canvas; [| by rewrite He].
  destruct He as (E1 & E2 & E3 & E4 & E5 & _ & E7).
  unfold handles_tracked, timers_ok. rewrite T1, T2, T3.
  split; [done |]. split; [done |]. split; [done |]. split; [done |]. split; [done |].
  intros h t Hlive.
  destruct (decide (h = next_chart (browser s))) as [-> | Hne]; [by exists key |].
  destruct (decide (charts s !! key = Some h)) as [Hk | Hk].
  { rewrite (E3 _ Hk) in Hlive. discriminate Hlive. }
  rewrite (E4 h Hne Hk) in Hlive. destruct (Hch _ _ Hlive) as (name & Hname).
  exists name. rewrite E5; [done |]. intros ->. by rewrite Hname in Hk.
Qed.

Lemma handles_tracked_initializeTracking (s : State) :
  handles_tracked s -> handles_tracked (initializeTracking s).
Proof.
  intros (Ht & (Cf & Cr) & Hlabel & Hge & Htr & Hch).
  destruct (initializeTracking_effect s Ht) as (E1 & E2 & E3 & E4 & E5 & _ & E7).
  pose proof Ht as (Tf & Tr).
  assert (Hch' : charts (initializeTracking s) = charts s /\
                 live_charts (browser (initializeTracking s)) = live_charts (browser s) /\
                 next_chart (browser (initializeTracking s)) = next_chart (browser s)).
  { unfold initializeTracking, setInterval.
    destruct (updateIntervals s !! "tracking"); [case_bool_decide |]; done. }
  destruct Hch' as (C1 & C2 & C3).
  assert (Hnext : (2 <= next_timer (browser s))%nat).
  { destruct (decide (2 <= next_timer (browser s))%nat) as [| Hlt]; [done |].
    rewrite Tf in Hlabel by lia. discriminate Hlabel. }
  unfold handles_tracked, charts_ok. rewrite C1, C2, C3.
  split; [exact E7 |]. split; [done |].
  split.
  { rewrite E4; [done | lia |]. intros Hreg. apply Hge in Hreg. lia. }
  split.
  { intros name h Hn. destruct (decide (name = "tracking")) as [-> | Hne].
    - rewrite E1 in Hn. injection Hn as <-. exact Hnext.
    - rewrite E5 in Hn by done. by eapply Hge. }
  split; [| done].
  intros h x Hrun.
  destruct (decide (h = next_timer (browser s))) as [-> | Hne]; [right; by exists "tracking" |].
  destruct (decide (updateIntervals s !! "tracking" = Some h)) as [Hk | Hk].
  { rewrite E3 in Hrun; [discriminate Hrun | done |]. apply Hge in Hk. lia. }
  rewrite (E4 h Hne Hk) in Hrun. destruct (Htr _ _ Hrun) as [-> | (name & Hname)]; [by left |].
  right. exists name. rewrite E5; [done |]. intros ->. by rewrite Hname in Hk.
Qed.

Lemma handleLogout_tail_untouched (s : State) :
  handles_untouched
    (set_charts ∅ (destroyAllCharts
       (set_updateIntervals ∅ (clearAllIntervals (set_currentUser None s)))))
    (handleLogout s).
Proof.
  unfold handleLogout. set (s3 := set_charts ∅ _). cbv zeta.
  set (s4 := match login_screen (login_view (dom s3)) with Some _ => _ | None => _ end).
  assert (H4 : handles_untouched s3 s4).
  { unfold s4. repeat case_match; by repeat split. }
  assert (H5 : handles_untouched s4 (clearLoginForm s4)) by (by repeat split).
  pose proof (showPage_untouched "dashboard" (clearLoginForm s4)) as H6.
  set (s6 := showPage "dashboard" (clearLoginForm s4)) in *.
  assert (H7 : handles_untouched s3 s6).
  { eapply handles_untouched_trans; [exact H4 |].
    eapply handles_untouched_trans; [exact H5 | exact H6]. }
  clearbody s6. case_match; [| exact H7].
  eapply handles_untouched_trans; [exact H7 |].
  unfold handles_untouched. simpl. repeat split; try done. lia.
Qed.

(** Logging out cancels and destroys, and revives nothing. *)
Lemma handleLogout_nothing_revived (s : State) :
  (forall h, intervals (browser s) !! h = None ->
     intervals (browser (handleLogout s)) !! h = None) /\
  (forall h, live_charts (browser s) !! h = None ->
     live_charts (browser (handleLogout s)) !! h = None) /\
  next_chart (browser (handleLogout s)) = next_chart (browser s) /\
  (next_timer (browser s) <= next_timer (browser (handleLogout s)))%nat.
Proof.
  destruct (handleLogout_tail_untouched s) as (_ & _ & Ti & Tl & Tc & Tt).
  destruct (handleLogout_loops s) as (_ & _ & Lt & Lc & _).
  set (s1 := set_currentUser None s) in *.
  set (s2 := set_updateIntervals ∅ (clearAllIntervals s1)) in *.
  destruct (clearAllIntervals_spec s1) as ((_ & _ & _ & _ & _ & _ & C7) & _ & _ & Cnone).
  destruct (destroyAllCharts_spec s2) as ((_ & _ & _ & _ & _ & _ & D7) & _).
  destruct (destroyCharts_fold_rest (map_to_list (charts s2)) s2) as (_ & Dnone).
  fold (destroyAllCharts s2) in Dnone.
  split; [| split; [| split]].
  - intros h Hh. rewrite Ti. simpl. rewrite D7. unfold s2. simpl. by apply Cnone.
  - intros h Hh. rewrite Tl. simpl. apply Dnone. unfold s2. simpl. by rewrite C7.
  - rewrite Tc. exact Lc.
  - rewrite <- Lt. exact Tt.
Qed.

Lemma handles_tracked_handleLogout (s : State) :
  handles_tracked s ->
  intervals (browser (handleLogout s)) = {[ 1%nat := (30000%Z, UpdateTimeLabels) ]} /\
  live_charts (browser (handleLogout s)) = ∅ /\
  handles_tracked (handleLogout s).
Proof.
  intros ((Tf & Tr) & (Cf & Cr) & Hlabel & Hge & Htr & Hch).
  destruct (handleLogout_effect s) as (_ & Hu & Hc & _ & _ & Hgone & Hkept & Hcgone).
  destruct (handleLogout_nothing_revived s) as (Inone & Lnone & Nc & Nt).
  assert (Hi : intervals (browser (handleLogout s)) = {[ 1%nat := (30000%Z, UpdateTimeLabels) ]}).
  { apply map_eq. intros h. destruct (decide (h = 1%nat)) as [-> | Hne].
    - rewrite lookup_singleton_eq, Hkept; [done |].
      intros name Hn. apply Hge in Hn. lia.
    - rewrite lookup_singleton_ne by done.
      destruct (intervals (browser s) !! h) as [x |] eqn:E; [| by apply Inone].
      destruct (Htr _ _ E) as [-> | (name & Hn)]; [done |].
      apply (Hgone name h Hn). apply Hge in Hn. lia. }
  assert (Hl : live_charts (browser (handleLogout s)) = ∅).
  { apply map_eq. intros h. rewrite lookup_empty.
    destruct (live_charts (browser s) !! h) as [t |] eqn:E; [| by apply Lnone].
    destruct (Hch _ _ E) as (name & Hn). by apply (Hcgone name h). }
  split; [exact Hi |]. split; [exact Hl |].
  assert (Hnext : (2 <= next_timer (browser s))%nat).
  { destruct (decide (2 <= next_timer (browser s))%nat) as [| Hlt]; [done |].
    rewrite Tf in Hlabel by lia. discriminate Hlabel. }
  unfold handles_tracked, timers_ok, charts_ok. rewrite Hi, Hl, Hu, Hc.
  split; [split |]; [| | split; [split |]]; try (intros ? ?; by rewrite lookup_empty).
  - intros h Hh. apply lookup_singleton_ne. lia.
  - split; [apply lookup_singleton_eq |].
    split; [intros ? ?; by rewrite lookup_empty |].
    split; [| intros ? ?; by rewrite lookup_empty].
    intros h x [-> _]%lookup_singleton_Some. by left.
Qed.

Lemma handles_tracked_initial (rnd : nat -> Q) (d : DOM) :
  handles_tracked (initialState rnd d).
Proof.
  unfold handles_tracked, timers_ok, charts_ok. simpl.
  split; [split |]; [| | split; [split |]]; try (intros ? ?; by rewrite lookup_empty).
  - intros h Hh. apply lookup_singleton_ne. lia.
  - split; [apply lookup_singleton_eq |].
    split; [intros ? ?; by rewrite lookup_empty |].
    split; [| intros ? ?; by rewrite lookup_empty].
    intros h x [-> _]%lookup_singleton_Some. by left.
Qed.

Lemma handles_tracked_apply_event (s : State) (e : Event) :
  handles_tracked s -> handles_tracked (apply_event s e).
Proof.
  intros H. destruct e; simpl.
  - eapply handles_tracked_untouched; [exact H |].
    eapply handles_untouched_trans; [| apply handleLogin_untouched]. by repeat split.
  - eapply handles_tracked_untouched; [exact H | apply initializeMainApp_untouched].
  - by apply handles_tracked_handleLogout.
  - eapply handles_tracked_untouched; [exact H | apply showPage_untouched].
  - eapply handles_tracked_untouched; [exact H | apply fetchers_untouched].
  - by apply handles_tracked_initializeTracking.
  - rewrite initializeComponentHealthChart_replaceChart. by apply handles_tracked_replaceChart.
  - unfold initializeAnalytics_callback, initializeMissionDistributionChart,
      initializeUtilizationChart, initializeDeliveryTimeChart, initializeSuccessRateChart.
    by repeat apply handles_tracked_replaceChart.
  - by apply handles_tracked_replaceChart.
  - eapply handles_tracked_untouched; [exact H | apply ticks_untouched].
  - eapply handles_tracked_untouched; [exact H | apply ticks_untouched].
  - eapply handles_tracked_untouched; [exact H | apply fetchers_untouched].
  - eapply handles_tracked_untouched; [exact H | apply fetchers_untouched].
  - eapply handles_tracked_untouched; [exact H | apply fetchers_untouched].
Qed.

Lemma reachable_handles_tracked (s : State) : reachable s -> handles_tracked s.
Proof.
  intros (rnd & d & events & ->).
  induction events as [| e events IH] using rev_ind; simpl.
  - apply handles_tracked_initial.
  - rewrite foldl_app. simpl. by apply handles_tracked_apply_event.
Qed.

Lemma sessionState_reachable : reachable sessionState.
Proof.
  exists sampleRandom, samplePage,
    [SubmitLogin "admin" "admin123" offline; MainAppTimeout; FetchFleet online;
     FetchKpis online; OpenTracking; OpenMaintenance].
  cbv [foldl apply_event sessionState adminState state0]. reflexivity.
Qed.

Lemma sessionState_tracked : handles_tracked sessionState.
Proof. apply reachable_handles_tracked, sessionState_reachable. Qed.

Lemma tracking_timer_is_replaced_witness :
  let s' := initializeTracking sessionState in
  updateIntervals sessionState !! "tracking" = Some 4%nat /\
  updateIntervals s' !! "tracking" = Some 5%nat /\
  intervals (browser s') !! 4%nat = None /\
  intervals (browser s') !! 5%nat = Some (3000%Z, UpdateFlightProgress) /\
  size (intervals (browser s')) = size (intervals (browser sessionState)).
Proof.
  intros s'.
  destruct (tracking_timer_is_replaced sessionState (proj1 sessionState_tracked))
    as (H1 & H2 & H3 & _ & _ & H6 & _).
  assert (E : updateIntervals sessionState !! "tracking" = Some 4%nat)
    by (vm_compute; reflexivity).
  split; [exact E |]. split; [exact H1 |].
  split; [apply (H3 4%nat E); discriminate |]. split; [exact H2 |].
  apply (H6 4%nat (3000%Z, UpdateFlightProgress) E); [discriminate |].
  vm_compute. reflexivity.
Defined.

(** X10: each of the six chart initialisers replaces its chart rather
    than adding one.  Without its canvas it does nothing.  With it, the
    chart registered under its key is destroyed, a new chart of its type
    is created under a handle of its own and registered, every other
    chart and registry entry is left alone, and if the old chart was
    still alive the number of live charts is unchanged. *)
Theorem chart_is_replaced (page : Canvases) (s : State) :
  charts_ok s ->
  chart_replaced (fleet_status_chart page) "fleetStatus" "doughnut" s
    (initializeFleetStatusChart page s) /\
  chart_replaced (success_rate_chart page) "successRate" "line" s
    (initializeSuccessRateChart page s) /\
  chart_replaced (delivery_time_chart page) "deliveryTime" "bar" s
    (initializeDeliveryTimeChart page s) /\
  chart_replaced (utilization_chart page) "utilization" "radar" s
    (initializeUtilizationChart page s) /\
  chart_replaced (mission_distribution_chart page) "missionDistribution" "pie" s
    (initializeMissionDistributionChart page s) /\
  chart_replaced (component_health_canvas (data_view (dom s))) "componentHealth" "bar" s
    (initializeComponentHealthChart s).
Proof.
  intros Hok. rewrite initializeComponentHealthChart_replaceChart.
  repeat split; by apply replaceChart_effect.
Qed.

Lemma chart_is_replaced_witness :
  let s' := initializeComponentHealthChart sessionState in
  charts sessionState !! "componentHealth" = Some 1%nat /\
  charts s' !! "componentHealth" = Some 2%nat /\
  live_charts (browser s') !! 1%nat = None /\
  live_charts (browser s') !! 2%nat = Some "bar" /\
  size (live_charts (browser s')) = size (live_charts (browser sessionState)).
Proof.
  intros s'.
  destruct (chart_is_replaced samplePageCanvases sessionState
              (proj1 (proj2 sessionState_tracked))) as (_ & _ & _ & _ & _ & H).
  change (component_health_canvas (data_view (dom sessionState))) with true in H.
  destruct H as (H1 & H2 & H3 & _ & _ & H6 & _).
  assert (E : charts sessionState !! "componentHealth" = Some 1%nat)
    by (vm_compute; reflexivity).
  split; [exact E |]. split; [exact H1 |].
  split; [exact (H3 1%nat E) |]. split; [exact H2 |].
  apply (H6 1%nat "bar" E). vm_compute. reflexivity.
Defined.



(** ** Tracking ticks *)



Lemma updateFlights_length (fs : list FlightItem) (s : State) :
  length (updateFlights fs s).1 = length fs.
Proof.
  revert s. induction fs as [| f fs IH]; intros s; [done |].
  simpl. destruct (updateFlight f s) as [f' s0]. specialize (IH s0).
  destruct (updateFlights fs s0) as [fs' s1]. simpl in *. by rewrite IH.
Qed.





(** X14: a tracking tick changes the flights and draws random numbers,
    nothing else: the session, the cache, the registries, the timers, the
    charts, the console and the rest of the page are as before; the
    number of flights is the same, and a flight whose bar reads 100 or
    more is left exactly as it was. *)
Theorem tracking_tick_touches_flights_only (s : State) :
  let s' := updateFlightProgress s in
  (currentUser s' = currentUser s /\ appData s' = appData s /\
   charts s' = charts s /\ updateIntervals s' = updateIntervals s /\
   isInitialized s' = isInitialized s /\
   intervals (browser s') = intervals (browser s) /\
   timeouts (browser s') = timeouts (browser s) /\
   live_charts (browser s') = live_charts (browser s) /\
   console (browser s') = console (browser s) /\
   login_view (dom s') = login_view (dom s) /\ nav_view (dom s') = nav_view (dom s) /\
   success_rate_el (data_view (dom s')) = success_rate_el (data_view (dom s)) /\
   avg_delivery_el (data_view (dom s')) = avg_delivery_el (data_view (dom s)) /\
   fleet_grid (data_view (dom s')) = fleet_grid (data_view (dom s))) /\
  length (flights (data_view (dom s'))) = length (flights (data_view (dom s))) /\
  (forall i f, flights (data_view (dom s)) !! i = Some f -> (100 <= currentWidth f)%Z ->
     flights (data_view (dom s')) !! i = Some f).
Proof.
  intros s'. pose proof (updateFlightProgress_same s) as H. cbv zeta in H. fold s' in H.
  split; [tauto |].
  destruct (updateFlightProgress_flights s) as (Hfl & _). fold s' in Hfl.
  split; [rewrite Hfl; apply updateFlights_length |].
  intros i f Hi Hfull. rewrite Hfl.
  destruct (updateFlights_lookup _ s i f Hi) as (s_i & -> & _).
  unfold updateFlight. apply Z.ltb_ge in Hfull. by rewrite Hfull.
Qed.

Lemma tracking_tick_touches_flights_only_witness :
  flights (data_view (dom (updateFlightProgress arrivedState))) !! 0%nat = Some arrivedFlight.
Proof.
  apply (proj2 (proj2 (tracking_tick_touches_flights_only arrivedState)) 0%nat arrivedFlight).
  - reflexivity.
  - vm_compute. discriminate.
Defined.

(** ** The fallback simulation *)

Lemma toFixed1_one_decimal (x : Q) : 0 <= x -> one_decimal (JS.toFixed1 x).
Proof.
  intros H0. unfold one_decimal. rewrite (toFixed1_nonneg x H0).
  set (m := Qfloor (x * 10 + (1 # 2))).
  assert (Hm : (0 <= m)%Z).
  { unfold m. rewrite <- (Qfloor_Z 0). apply Qfloor_resp_le.
    change (inject_Z 0) with 0. lra. }
  rewrite Zle_Qle in Hm. change (inject_Z 0) with 0 in Hm.
  rewrite toFixed1_nonneg by qlra.
  destruct (Qfloor_between (inject_Z m / 10 * 10 + (1 # 2)) m m) as [H1 H2].
  - qlra.
  - rewrite inject_Z_plus. change (inject_Z 1) with 1. qlra.
  - assert (E : Qfloor (inject_Z m / 10 * 10 + (1 # 2)) = m) by lia.
    rewrite E. reflexivity.
Qed.



(** X16: whatever number the page shows, in range or not, after a tick
    of the simulation with [Math.random()] in [0, 1) the success rate
    shown is a one-decimal number within [90, 100] and the delivery time
    shown a one-decimal number within [8, 20]. *)
Theorem simulation_forces_range (s : State) :
  random_in_range s ->
  let s' := updateDashboardDataLocal s in
  (forall cur, success_rate_el (data_view (dom s)) = Some cur ->
     exists shown, success_rate_el (data_view (dom s')) = Some shown /\
       90 <= shown /\ shown <= 100 /\ one_decimal shown) /\
  (forall cur, avg_delivery_el (data_view (dom s)) = Some cur ->
     exists shown, avg_delivery_el (data_view (dom s')) = Some shown /\
       8 <= shown /\ shown <= 20 /\ one_decimal shown) /\
  (success_rate_el (data_view (dom s)) = None -> success_rate_el (data_view (dom s')) = None) /\
  (avg_delivery_el (data_view (dom s)) = None -> avg_delivery_el (data_view (dom s')) = None).
Proof.
  intros Hr s'.
  destruct (updateDashboardDataLocal_effect s Hr) as (Hrate & Htime & _).
  fold s' in Hrate, Htime.
  split; [| split; [| split]].
  - intros cur Hcur. destruct (Hrate cur Hcur) as (r & (H0 & H1) & Hshown).
    eexists. split; [exact Hshown |].
    destruct (shown_success_rate cur r H0 H1) as ((Ha & Hb) & _).
    split; [exact Ha |]. split; [exact Hb |].
    apply toFixed1_one_decimal.
    destruct (newSuccessRate_bounds cur r H0 H1) as ((Hc & _) & _). lra.
  - intros cur Hcur. destruct (Htime cur Hcur) as (r & (H0 & H1) & Hshown).
    eexists. split; [exact Hshown |].
    destruct (shown_delivery_time cur r H0 H1) as ((Ha & Hb) & _).
    split; [exact Ha |]. split; [exact Hb |].
    apply toFixed1_one_decimal.
    destruct (newDeliveryTime_bounds cur r H0 H1) as ((Hc & _) & _). lra.
  - intros Hnone. subst s'. unfold updateDashboardDataLocal. rewrite Hnone.
    destruct (avg_delivery_el (data_view (dom s))); cbv zeta;
      [destruct (Math_random s) |];
      match goal with |- context [simulateFleet ?l ?x] =>
        pose proof (simulateFleet_frame l x) as Hd; destruct (simulateFleet l x) end;
      simpl in *; by rewrite Hd.
  - intros Hnone. subst s'. unfold updateDashboardDataLocal. rewrite Hnone.
    destruct (success_rate_el (data_view (dom s))); cbv zeta;
      [destruct (Math_random s) |];
      match goal with |- context [simulateFleet ?l ?x] =>
        pose proof (simulateFleet_frame l x) as Hd; destruct (simulateFleet l x) end;
      simpl in *; by rewrite Hd.
Qed.

Lemma simulation_forces_range_witness :
  let s := set_data_view
             {| success_rate_el := Some 85; avg_delivery_el := Some 31.4;
                fleet_grid := Some []; flights := []; component_health_canvas := true |}
             sessionState in
  (exists shown, success_rate_el (data_view (dom (updateDashboardDataLocal s))) = Some shown /\
     90 <= shown /\ shown <= 100) /\
  (exists shown, avg_delivery_el (data_view (dom (updateDashboardDataLocal s))) = Some shown /\
     8 <= shown /\ shown <= 20).
Proof.
  intros s.
  assert (Hr : random_in_range s) by exact sessionState_random.
  destruct (simulation_forces_range s Hr) as (H1 & H2 & _).
  split.
  - destruct (H1 85 eq_refl) as (shown & Hs & Ha & Hb & _).
    exists shown. split; [exact Hs |]. split; [exact Ha | exact Hb].
  - destruct (H2 31.4 eq_refl) as (shown & Hs & Ha & Hb & _).
    exists shown. split; [exact Hs |]. split; [exact Ha | exact Hb].
Defined.

(** X17: the simulation is on screen only.  A tick rewrites the two
    numbers shown and the batteries of the cached fleet; the cached KPI
    snapshot and supplies, the session, the registries, the timers, the
    charts, the console and the rest of the page are as before, and the
    fleet keeps its drones, in order, with their ids and statuses. *)
Theorem simulation_touches_display_and_batteries_only (s : State) :
  let s' := updateDashboardDataLocal s in
  (kpi_data (appData s') = kpi_data (appData s) /\
   medical_supplies (appData s') = medical_supplies (appData s) /\
   currentUser s' = currentUser s /\ charts s' = charts s /\
   updateIntervals s' = updateIntervals s /\ isInitialized s' = isInitialized s /\
   intervals (browser s') = intervals (browser s) /\
   timeouts (browser s') = timeouts (browser s) /\
   live_charts (browser s') = live_charts (browser s) /\
   console (browser s') = console (browser s) /\
   login_view (dom s') = login_view (dom s) /\ nav_view (dom s') = nav_view (dom s) /\
   fleet_grid (data_view (dom s')) = fleet_grid (data_view (dom s)) /\
   flights (data_view (dom s')) = flights (data_view (dom s))) /\
  map drone_id (drone_fleet (appData s')) = map drone_id (drone_fleet (appData s)) /\
  map drone_status (drone_fleet (appData s')) = map drone_status (drone_fleet (appData s)).
Proof.
  intros s'. pose proof (updateDashboardDataLocal_same s) as H. cbv zeta in H. fold s' in H.
  split; [tauto |].
  assert (Hfleet : forall ds s0,
    map drone_id (simulateFleet ds s0).1 = map drone_id ds /\
    map drone_status (simulateFleet ds s0).1 = map drone_status ds).
  { induction ds as [| d ds IH]; intros s0; [done |]. simpl.
    assert (Hd : drone_id (simulateBattery d s0).1 = drone_id d /\
                 drone_status (simulateBattery d s0).1 = drone_status d).
    { unfold simulateBattery. repeat case_match; done. }
    destruct (simulateBattery d s0) as [d' s1]. specialize (IH s1).
    destruct (simulateFleet ds s1) as [ds' s2]. simpl in *.
    destruct Hd as (-> & ->). destruct IH as (-> & ->). done. }
  subst s'. unfold updateDashboardDataLocal.
  destruct (success_rate_el (data_view (dom s))); [destruct (Math_random s) as [r1 s1] eqn:E1 |];
    (destruct (avg_delivery_el (data_view (dom s)));
      [match goal with |- context [Math_random ?x] =>
         destruct (Math_random x) as [r2 s2] eqn:E2 end |]);
    cbv zeta;
    match goal with |- context [simulateFleet ?l ?x] =>
      pose proof (Hfleet l x) as Hf; destruct (simulateFleet l x) as [fleet s3]
    end;
    simpl in *; unfold Math_random in *; simplify_eq; simpl in *; exact Hf.
Qed.

(** ** Drone cards *)

(** X18: a drone card shows the battery as the nearest whole percent,
    a half going up, draws the bar at the exact battery level, and copies
    the id, status, mission and location of the drone. *)
Theorem drone_card_shows_nearest_percent (d : Drone) :
  exists n : Z,
    card_battery_label (createDroneCard d) = pretty n +:+ "%" /\
    inject_Z n - (1 # 2) <= drone_battery d /\ drone_battery d < inject_Z n + (1 # 2) /\
    card_battery_width (createDroneCard d) = drone_battery d /\
    card_id (createDroneCard d) = drone_id d /\
    card_status (createDroneCard d) = drone_status d /\
    card_mission (createDroneCard d) = drone_mission d /\
    card_location (createDroneCard d) = drone_location d.
Proof.
  exists (JS.round (drone_battery d)). split; [done |].
  unfold JS.round.
  pose proof (Qfloor_le (drone_battery d + (1 # 2))) as Hle.
  pose proof (Qlt_floor (drone_battery d + (1 # 2))) as Hlt.
  rewrite inject_Z_plus in Hlt. change (inject_Z 1) with 1 in Hlt.
  repeat split; try done; lra.
Qed.

Lemma toLowerCase_ascii_facts (c : ascii) :
  is_upper (toLowerCase_ascii c) = false /\
  Ascii.eqb (toLowerCase_ascii c) " " = Ascii.eqb c " ".
Proof. destruct c as [[] [] [] [] [] [] [] []]; by vm_compute. Qed.

Lemma toLowerCase_shape (s : string) :
  String.length (toLowerCase s) = String.length s /\
  no_upper (toLowerCase s) = true /\
  count_spaces (toLowerCase s) = count_spaces s.
Proof.
  induction s as [| c s (IH1 & IH2 & IH3)]; [done |]. simpl.
  destruct (toLowerCase_ascii_facts c) as (-> & ->).
  by rewrite IH1, IH2, IH3.
Qed.

Lemma replace_space_shape (s : string) :
  String.length (replace_space s) = String.length s /\
  (no_upper s = true -> no_upper (replace_space s) = true) /\
  count_spaces (replace_space s) = pred (count_spaces s).
Proof.
  induction s as [| c s (IH1 & IH2 & IH3)]; [done |]. simpl.
  destruct (Ascii.eqb_spec c " ") as [-> | Hc]; simpl.
  - repeat split; try done; lia.
  - rewrite IH1.
    destruct (Ascii.eqb_spec c " ") as [| _]; [done |].
    split; [done |]. split; [| exact IH3].
    intros [Hu Hs]%andb_true_iff. rewrite Hu. by apply IH2.
Qed.

(** X19: the status class of a drone card is the status in lower case
    with its first space, and only that one, turned into a hyphen: it has
    the length of the status, no upper-case letter, and one space fewer
    than the status has, so a status of three words or more gives a class
    with a space in it. *)
Theorem status_class_replaces_first_space (d : Drone) :
  let c := card_status_class (createDroneCard d) in
  String.length c = String.length (drone_status d) /\
  no_upper c = true /\
  count_spaces c = pred (count_spaces (drone_status d)) /\
  card_status_class (createDroneCard (mkDrone "LLA-009" "In Flight" "None" "Zone B" 50))
    = "in-flight" /\
  card_status_class (createDroneCard (mkDrone "LLA-009" "Return To Base" "None" "Zone B" 50))
    = "return-to base".
Proof.
  simpl.
  destruct (toLowerCase_shape (drone_status d)) as (L1 & L2 & L3).
  destruct (replace_space_shape (toLowerCase (drone_status d))) as (R1 & R2 & R3).
  rewrite R1, R3, L1, L3. split; [done |]. split; [by apply R2 |]. done.
Qed.

(** ** The fleet-status chart *)







(** ** The count-up animation *)

Lemma Qle_bool_comp (x y : Q) : x == y -> Qle_bool 0 x = Qle_bool 0 y.
Proof.
  intros H. destruct (Qle_bool 0 x) eqn:Ex, (Qle_bool 0 y) eqn:Ey; try done.
  - apply Qle_bool_iff in Ex. rewrite H in Ex. apply Qle_bool_iff in Ex. congruence.
  - apply Qle_bool_iff in Ey. rewrite <- H in Ey. apply Qle_bool_iff in Ey. congruence.
Qed.

Lemma toFixed1_comp (x y : Q) : x == y -> JS.toFixed1 x = JS.toFixed1 y.
Proof.
  intros H. unfold JS.toFixed1. rewrite (Qle_bool_comp x y H).
  assert (E1 : Qfloor (x * 10 + (1 # 2)) = Qfloor (y * 10 + (1 # 2))) by (by rewrite H).
  assert (E2 : Qfloor (- x * 10 + (1 # 2)) = Qfloor (- y * 10 + (1 # 2))) by (by rewrite H).
  by rewrite E1, E2.
Qed.

Lemma toFixed1_mono (x y : Q) : 0 <= x -> x <= y -> JS.toFixed1 x <= JS.toFixed1 y.
Proof.
  intros H0 Hxy. rewrite !toFixed1_nonneg by lra.
  assert (H : (Qfloor (x * 10 + (1 # 2)) <= Qfloor (y * 10 + (1 # 2)))%Z).
  { apply Qfloor_resp_le. lra. }
  rewrite Zle_Qle in H. qlra.
Qed.

(** The fraction of the animation done at [currentTime]. *)
Lemma animation_progress (duration startTime currentTime : Q) :
  0 < duration ->
  let p := JS.min ((currentTime - startTime) / duration) 1 in
  p <= 1 /\
  (p < 1 <-> currentTime < startTime + duration) /\
  (startTime + duration <= currentTime -> p == 1) /\
  (startTime <= currentTime -> 0 <= p).
Proof.
  intros Hd p. subst p.
  set (a := (currentTime - startTime) / duration).
  assert (Ha : a * duration == currentTime - startTime).
  { unfold a. field. lra. }
  assert (H1 : a < 1 <-> currentTime < startTime + duration).
  { split; intros H.
    - assert (a * duration < 1 * duration) by (apply Qmult_lt_compat_r; done). lra.
    - apply Qnot_le_lt. intros Hge.
      assert (1 * duration <= a * duration) by (apply Qmult_le_compat_r; lra). lra. }
  assert (H0 : startTime <= currentTime -> 0 <= a).
  { intros H. apply Qnot_lt_le. intros Hlt.
    assert (a * duration < 0 * duration) by (apply Qmult_lt_compat_r; done). lra. }
  destruct (min_spec a 1) as [[Hm ->] | [Hm ->]].
  - split; [done |]. split; [done |]. split; [| done].
    intros H. apply Qle_antisym; [done |].
    apply Qnot_lt_le. intros Hlt. apply H1 in Hlt. lra.
  - split; [lra |]. split; [| split; [done | lra]].
    split; [lra |]. intros H. apply H1 in H. lra.
Qed.

(** X21: the count-up ends on its target.  For a positive duration, a
    frame asks for another one exactly while less than the duration has
    passed; a frame at or after the end writes the target itself, with
    one decimal when it is not a whole number, whatever the start
    value. *)
Theorem animation_ends_on_target (start endValue duration startTime currentTime : Q) :
  0 < duration ->
  let frame := animateValue_update start endValue duration startTime currentTime in
  (frame.2 = true <-> currentTime < startTime + duration) /\
  (startTime + duration <= currentTime -> frame.1 == animation_target endValue).
Proof.
  intros Hd frame. subst frame. unfold animateValue_update. cbv zeta. cbn [fst snd].
  destruct (animation_progress duration startTime currentTime Hd) as (_ & Hlt & Hend & _).
  cbv zeta in Hlt, Hend.
  split; [by rewrite lt_true |].
  intros Hdone. specialize (Hend Hdone).
  set (p := JS.min ((currentTime - startTime) / duration) 1) in *.
  assert (Hcur : start + (endValue - start) * p == endValue) by (rewrite Hend; ring).
  unfold animation_target. destruct (isFloat endValue) eqn:E.
  - by rewrite (toFixed1_comp _ _ Hcur).
  - unfold isFloat in E. apply negb_false_iff, Qeq_bool_iff in E.
    rewrite Hcur. by symmetry.
Qed.

Lemma animation_ends_on_target_witness :
  (animateValue_update 0 94.5 1500 200 1700).2 = false /\
  (animateValue_update 0 94.5 1500 200 1700).1 == 94.5 /\
  (animateValue_update 0 15 1000 200 700).2 = true /\
  (animateValue_update 0 15 1000 200 700).1 == 7.
Proof.
  destruct (animation_ends_on_target 0 94.5 1500 200 1700) as (H1 & H2); [done |].
  split; [by vm_compute |]. split; [| by vm_compute].
  rewrite H2; [by vm_compute | by vm_compute].
Defined.

(** X22: a count-up from a start value that is not negative to a target
    that is not below it never runs backwards and never overshoots: of
    two frames the later one does not write less, and no frame after
    the start writes more than what the animation ends on. *)
Theorem animation_counts_up (start endValue duration startTime t1 t2 : Q) :
  0 < duration -> 0 <= start -> start <= endValue ->
  startTime <= t1 -> t1 <= t2 ->
  let shown t := (animateValue_update start endValue duration startTime t).1 in
  0 <= shown t1 /\ shown t1 <= shown t2 /\ shown t2 <= animation_target endValue.
Proof.
  intros Hd H0 Hse Ht1 Ht12 shown. subst shown. cbv beta.
  unfold animateValue_update. cbv zeta. cbn [fst].
  destruct (animation_progress duration startTime t1 Hd) as (P1 & _ & _ & P1').
  destruct (animation_progress duration startTime t2 Hd) as (P2 & _ & _ & P2').
  cbv zeta in P1, P1', P2, P2'. specialize (P1' Ht1).
  assert (P2'' : 0 <= JS.min ((t2 - startTime) / duration) 1) by (apply P2'; lra).
  assert (Hp : JS.min ((t1 - startTime) / duration) 1 <= JS.min ((t2 - startTime) / duration) 1).
  { assert (Ha : (t1 - startTime) / duration <= (t2 - startTime) / duration).
    { unfold Qdiv. apply Qmult_le_compat_r; [lra |].
      apply Qlt_le_weak, Qinv_lt_0_compat, Hd. }
    destruct (min_spec ((t1 - startTime) / duration) 1) as [[? ->] | [? ->]];
      destruct (min_spec ((t2 - startTime) / duration) 1) as [[? ->] | [? ->]]; lra. }
  set (p1 := JS.min ((t1 - startTime) / duration) 1) in *.
  set (p2 := JS.min ((t2 - startTime) / duration) 1) in *.
  assert (C0 : start <= start + (endValue - start) * p1).
  { assert (0 <= (endValue - start) * p1) by (apply Qmult_le_0_compat; lra). lra. }
  assert (C12 : start + (endValue - start) * p1 <= start + (endValue - start) * p2).
  { assert ((endValue - start) * p1 <= (endValue - start) * p2); [| lra].
    rewrite !(Qmult_comm (endValue - start)). apply Qmult_le_compat_r; lra. }
  assert (C2 : start + (endValue - start) * p2 <= endValue).
  { assert ((endValue - start) * p2 <= (endValue - start) * 1); [| lra].
    rewrite !(Qmult_comm (endValue - start)). apply Qmult_le_compat_r; lra. }
  unfold animation_target. destruct (isFloat endValue) eqn:E.
  - split; [| split].
    + assert (Hz : JS.toFixed1 0 <= JS.toFixed1 (start + (endValue - start) * p1))
        by (apply toFixed1_mono; lra).
      assert (Hz0 : JS.toFixed1 0 == 0) by (by vm_compute). lra.
    + apply toFixed1_mono; lra.
    + apply toFixed1_mono; lra.
  - assert (F1 : (0 <= Qfloor (start + (endValue - start) * p1))%Z).
    { rewrite <- (Qfloor_Z 0). apply Qfloor_resp_le. change (inject_Z 0) with 0. lra. }
    assert (F12 : (Qfloor (start + (endValue - start) * p1)
                   <= Qfloor (start + (endValue - start) * p2))%Z)
      by (by apply Qfloor_resp_le).
    pose proof (Qfloor_le (start + (endValue - start) * p2)) as F2.
    rewrite Zle_Qle in F1, F12. change (inject_Z 0) with 0 in F1.
    split; [done |]. split; [done | lra].
Qed.

Lemma animation_counts_up_witness :
  ((animateValue_update 0 12.3 1800 100 1000).1
     <= (animateValue_update 0 12.3 1800 100 1500).1) /\
  ((animateValue_update 0 12.3 1800 100 1500).1 <= 12.3).
Proof.
  assert (Hd : 0 < 1800) by (by vm_compute).
  assert (H0 : 0 <= 0) by (by vm_compute).
  assert (Hse : 0 <= 12.3) by (by vm_compute).
  assert (Ht1 : 100 <= 1000) by (by vm_compute).
  assert (Ht12 : 1000 <= 1500) by (by vm_compute).
  destruct (animation_counts_up 0 12.3 1800 100 1000 1500 Hd H0 Hse Ht1 Ht12)
    as (_ & H1 & H2).
  split; [exact H1 |].
  eapply Qle_trans; [exact H2 |]. by vm_compute.
Defined.

(** ** Inventory cards *)

Lemma min100_at_most_100 (x : Num) : at_most_100 (min100 x).
Proof.
  destruct x as [q | | |]; cbn [min100 at_most_100]; [| lra | done | done].
  destruct (min_spec 100 q) as [[_ ->] | [H ->]]; lra.
Qed.

(** X23: the stock bar of an inventory card never runs over its track,
    and for a positive stock and a positive minimum it is full exactly
    when the stock is at least twice the minimum; below that its width is
    the stock as a percentage of twice the minimum. *)
Theorem inventory_bar_capped (supply : Supply.t) (card : InventoryCard) :
  createInventoryCard supply = Some card ->
  at_most_100 (inv_fill_width card) /\
  forall c m, inv_stock card = Some c -> inv_min card = Some m -> 0 < c -> 0 < m ->
    exists w, inv_fill_width card = Finite w /\ 0 < w /\
      (w == 100 <-> m * 2 <= c) /\ (c < m * 2 -> w == c / (m * 2) * 100).
Proof.
  unfold createInventoryCard. cbv zeta.
  destruct (or_string (Supply.quality_status supply) (Supply.status supply))
    as [status |]; [| done].
  intros [= <-]. cbn [inv_fill_width inv_stock inv_min].
  split; [apply min100_at_most_100 |].
  intros c m -> -> Hc Hm. unfold stockPercentage.
  destruct (Qeq_bool (m * 2) 0) eqn:E.
  { apply Qeq_bool_iff in E. lra. }
  cbn [min100].
  assert (Hm2 : 0 < m * 2) by lra.
  assert (Hi : 0 < / (m * 2)) by (by apply Qinv_lt_0_compat).
  assert (Hq : c / (m * 2) * 100 == 100 * c * / (m * 2)) by (unfold Qdiv; ring).
  assert (Hpos : 0 < c / (m * 2) * 100).
  { rewrite Hq. apply Qmult_lt_0_compat; [lra | exact Hi]. }
  assert (Hle : 100 <= c / (m * 2) * 100 <-> m * 2 <= c).
  { split; intros H.
    - apply Qnot_lt_le. intros Hlt.
      assert (H1 : c / (m * 2) < 1).
      { apply Qlt_shift_div_r; [exact Hm2 | lra]. }
      lra.
    - assert (H1 : 1 <= c / (m * 2)).
      { apply Qle_shift_div_l; [exact Hm2 | lra]. }
      lra. }
  eexists. split; [reflexivity |].
  destruct (min_spec 100 (c / (m * 2) * 100)) as [[H ->] | [H ->]].
  - split; [lra |]. split.
    + split; [intros _; by apply Hle | done].
    + intros Hlt. apply Hle in H. lra.
  - split; [exact Hpos |]. split.
    + split; [intros E'; lra | intros H'; apply Hle in H'; lra].
    + done.
Qed.

Lemma inventory_bar_capped_witness :
  exists card w, createInventoryCard (backendSupply 12 15) = Some card /\
    inv_fill_width card = Finite w /\ 0 < w /\ w == 40.
Proof.
  exists (mkInventoryCard (Some "Insulin") "Low Stock" "low-stock" (Some 12) "vials"
            (Some 15) "low" (Finite (JS.min 100 (12 / (15 * 2) * 100)))).
  assert (Hc : createInventoryCard (backendSupply 12 15)
               = Some (mkInventoryCard (Some "Insulin") "Low Stock" "low-stock" (Some 12)
                         "vials" (Some 15) "low"
                         (Finite (JS.min 100 (12 / (15 * 2) * 100)))))
    by (vm_compute; reflexivity).
  destruct (inventory_bar_capped _ _ Hc) as (_ & H).
  assert (H12 : 0 < 12) by (by vm_compute).
  assert (H15 : 0 < 15) by (by vm_compute).
  destruct (H 12 15 eq_refl eq_refl H12 H15) as (w & Hw & Hpos & _ & Hv).
  exists w. split; [exact Hc |]. split; [exact Hw |]. split; [exact Hpos |].
  rewrite Hv; by vm_compute.
Defined.

(** X24: a supply whose [current_stock] is zero is shown with the stock
    of the old format in its place; when there is none, the card shows no
    stock and its bar gets no width at all, not a width of zero. *)
Theorem out_of_stock_falls_back (supply : Supply.t) (card : InventoryCard) (q : Q) :
  createInventoryCard supply = Some card ->
  Supply.current_stock supply = Some q -> q == 0 ->
  inv_stock card = Supply.stock supply /\
  (Supply.stock supply = None -> inv_fill_width card = NaN).
Proof.
  unfold createInventoryCard. cbv zeta.
  destruct (or_string (Supply.quality_status supply) (Supply.status supply))
    as [status |]; [| done].
  intros [= <-] Hs Hq. cbn [inv_fill_width inv_stock].
  assert (E : or_number (Supply.current_stock supply) (Supply.stock supply)
              = Supply.stock supply).
  { rewrite Hs. unfold or_number. apply Qeq_bool_iff in Hq. by rewrite Hq. }
  rewrite E. split; [done |]. by intros ->.
Qed.

Lemma out_of_stock_falls_back_witness :
  exists card, createInventoryCard (backendSupply 0 15) = Some card /\
    inv_stock card = None /\ inv_fill_width card = NaN.
Proof.
  exists (mkInventoryCard (Some "Insulin") "Low Stock" "low-stock" None "vials"
            (Some 15) "low" NaN).
  assert (Hc : createInventoryCard (backendSupply 0 15)
               = Some (mkInventoryCard (Some "Insulin") "Low Stock" "low-stock" None "vials"
                         (Some 15) "low" NaN)) by (vm_compute; reflexivity).
  assert (Hs : Supply.current_stock (backendSupply 0 15) = Some 0) by reflexivity.
  assert (Hq : 0 == 0) by reflexivity.
  destruct (out_of_stock_falls_back _ _ 0 Hc Hs Hq) as (H1 & H2).
  split; [exact Hc |]. split; [exact H1 | apply H2; reflexivity].
Defined.

(** ** Time labels *)

Lemma timeLabelsFrom_spec (n index : nat) (s : State) :
  random_in_range s ->
  length (timeLabelsFrom index n s).1 = n /\
  (forall i m, (timeLabelsFrom index n s).1 !! i = Some m ->
     ((Z.of_nat (index + i) + 1) * 2 <= m <= (Z.of_nat (index + i) + 1) * 2 + 2)%Z) /\
  same_but_random s (timeLabelsFrom index n s).2 /\
  random_in_range (timeLabelsFrom index n s).2.
Proof.
  revert index s. induction n as [| n IH]; intros index s Hs.
  - simpl. split; [done |]. split; [by intros i m H |]. split; [| done].
    unfold same_but_random. by repeat split.
  - cbn [timeLabelsFrom].
    destruct (Math_random_range s Hs) as (Hr & Hs').
    assert (Hsame : same_but_random s (Math_random s).2) by (unfold same_but_random; by repeat split).
    destruct (Math_random s) as [r s1]. cbn [fst snd] in *.
    destruct (IH (S index) s1 Hs') as (Hl & Hi & Hsb & Hrr).
    destruct (timeLabelsFrom (S index) n s1) as [rest s2]. cbn [fst snd] in *.
    split; [simpl; by rewrite Hl |]. split; [| split; [| done]].
    + intros [| i] m H.
      * change (Some ((Z.of_nat index + 1) * 2 + Qfloor (r * 3))%Z = Some m) in H.
        injection H as <-. rewrite Nat.add_0_r.
        assert (Hf : (0 <= Qfloor (r * 3) <= 2)%Z).
        { destruct Hr as (Hr0 & Hr1).
          apply Qfloor_between; [change (inject_Z 0) with 0 | change (inject_Z (2 + 1)) with 3];
            clear - Hr0 Hr1; lra. }
        change (0 <= (Qnum r * 3) `div` Z.pos (Qden r * 1) <= 2)%Z in Hf. lia.
      * change (rest !! i = Some m) in H. apply Hi in H.
        replace (index + S i)%nat with (S index + i)%nat by lia. exact H.
    + eapply same_but_random_trans; [exact Hsame | exact Hsb].
Qed.

(** X25: a run of the time-label timer over [n] labels writes [n] texts,
    the one at position [i] between [2 (i + 1)] and [2 (i + 1) + 2]
    minutes, so that no label shows fewer minutes than one before it; the
    run changes nothing but the random numbers still to come. *)
Theorem time_labels_in_order (n : nat) (s : State) :
  random_in_range s ->
  length (updateTimeLabels n s).1 = n /\
  (forall i m, (updateTimeLabels n s).1 !! i = Some m ->
     (2 * (Z.of_nat i + 1) <= m <= 2 * (Z.of_nat i + 1) + 2)%Z) /\
  (forall i j a b, (i < j)%nat ->
     (updateTimeLabels n s).1 !! i = Some a -> (updateTimeLabels n s).1 !! j = Some b ->
     (a <= b)%Z) /\
  same_but_random s (updateTimeLabels n s).2 /\
  random_in_range (updateTimeLabels n s).2.
Proof.
  intros Hs. unfold updateTimeLabels.
  destruct (timeLabelsFrom_spec n 0 s Hs) as (Hl & Hi & Hsb & Hr).
  split; [exact Hl |]. split; [| split; [| done]].
  - intros i m H. apply Hi in H. simpl in H. lia.
  - intros i j a b Hij Ha Hb. apply Hi in Ha. apply Hi in Hb. simpl in Ha, Hb. lia.
Qed.

Lemma time_labels_in_order_witness :
  (updateTimeLabels 3 sessionState).1 = [3; 4; 6]%Z /\
  same_but_random sessionState (updateTimeLabels 3 sessionState).2.
Proof.
  destruct (time_labels_in_order 3 sessionState sessionState_random)
    as (_ & _ & _ & H & _).
  split; [vm_compute; reflexivity | exact H].
Defined.
